(** * H2 ground-state energy notebook: the XYZ geometry input and the VQE
      convergence loop

    The notebook [h2-groundstate-energy/submission/start_here.ipynb] parses a
    molecular geometry, builds a cost function on a simulated device and
    minimises it with a gradient-descent optimizer:

<<
    for _ in range(max_iterations):
        theta, prev_energy = optimizer.step_and_cost(cost_fn, theta)
        energy = cost_fn(theta)
        if np.abs(energy - prev_energy) <= convergence_tolerance:
            break

    print(f"Final value of the ground-state energy = {energy:.8f} Ha")
    print(f"Optimal value of the circuit parameter = {theta:.4f}")
    ...
    output = float(energy)
>>

    The cost function and the optimizer are PennyLane objects: they are
    parameters of the development.  Energies are IEEE binary64 numbers, as
    in numpy, and are modelled by Rocq's primitive floats. *)

From Stdlib Require Import List String Ascii ZArith QArith Bool Arith Lia.
From Stdlib Require Import PrimFloat.
From Stdlib Require Import SpecFloat FloatOps FloatAxioms.
Import ListNotations.

Set Implicit Arguments.

(** ** Results of calls that may raise *)

Inductive result (E A : Type) : Type :=
| Ok (a : A)
| Raise (e : E).

Arguments Ok {E A} a.
Arguments Raise {E A} e.

(** ** The geometry text

  [xyz_parse.Molecule.parse] is an imported package: the notebook only
  calls it and records the [repr] of what it returned for the sample
  input. *)

Module GeometryParser.

Open Scope string_scope.

(** Coordinates are decimal numbers; a value keeps the scale it was
    written with ([0.3710] is [3710 # 10000]), as the recorded
    [repr] of the sample molecule does. *)
Record Atom : Type := {
  symbol : string;
  x : Q;
  y : Q;
  z : Q
}.

Record Molecule : Type := {
  comment : string;
  atoms : list Atom
}.

(** Line numbers count from one. *)
Inductive FormatError : Type :=
| MissingHeader
| BadHeader (token : string)
| MissingComment
| WrongTokenCount (line : nat) (found : nat)
| BadCoordinate (line : nat) (token : string)
| WrongAtomCount (found expected : nat).

Definition newline : ascii := ascii_of_nat 10.

Definition is_space (c : ascii) : bool :=
  let n := nat_of_ascii c in
  (n =? 32)%nat || ((9 <=? n)%nat && (n <=? 13)%nat).

Definition is_digit (c : ascii) : bool :=
  let n := nat_of_ascii c in (48 <=? n)%nat && (n <=? 57)%nat.

Definition is_empty (s : string) : bool :=
  match s with
  | EmptyString => true
  | String _ _ => false
  end.

(** The segments of [s] between the characters [sep] holds of: always
    at least one. *)
Fixpoint split (sep : ascii -> bool) (s : string) : list string :=
  match s with
  | EmptyString => [EmptyString]
  | String c s' =>
      if sep c then EmptyString :: split sep s'
      else match split sep s' with
           | seg :: segs => String c seg :: segs
           | [] => [String c EmptyString]
           end
  end.

(** Modelled from the spec: the lines of the text [xyz_parse] reads; a
    newline ends a line, so a final newline starts no further line. *)
Definition lines (text : string) : list string :=
  let segs := split (Ascii.eqb newline) text in
  if is_empty (last segs EmptyString) then removelast segs else segs.

(** Modelled from the spec: the whitespace-separated tokens of a line of
    the text [xyz_parse] reads. *)
Definition tokens (line : string) : list string :=
  filter (fun t => negb (is_empty t)) (split is_space line).

Fixpoint all_digits (s : string) : bool :=
  match s with
  | EmptyString => true
  | String c s' => is_digit c && all_digits s'
  end.

Fixpoint digits_value (acc : Z) (s : string) : Z :=
  match s with
  | EmptyString => acc
  | String c s' =>
      digits_value (10 * acc + Z.of_nat (nat_of_ascii c - 48)) s'
  end.

(** A leading sign, if any, and the rest. *)
Definition strip_sign (s : string) : bool * string :=
  match s with
  | String "-" r => (true, r)
  | String "+" r => (false, r)
  | _ => (false, s)
  end.

Definition signed (negative : bool) (v : Z) : Z :=
  if negative then (- v)%Z else v.

(** Modelled from the spec: the header token of [xyz_parse], an integer
    (an optional sign and at least one digit). *)
Definition integer (s : string) : option Z :=
  let (negative, r) := strip_sign s in
  if negb (is_empty r) && all_digits r
  then Some (signed negative (digits_value 0 r))
  else None.

(** [s] up to the first character [p] holds of, and what follows that
    character when there is one. *)
Fixpoint cut (p : ascii -> bool) (s : string) : string * option string :=
  match s with
  | EmptyString => (EmptyString, None)
  | String c s' =>
      if p c then (EmptyString, Some s')
      else let (before, after) := cut p s' in (String c before, after)
  end.

Definition is_dot (c : ascii) : bool := Ascii.eqb c ".".
Definition is_exp (c : ascii) : bool := Ascii.eqb c "e" || Ascii.eqb c "E".

(** Modelled from the spec: a coordinate token of [xyz_parse], a real
    number in fixed or exponential notation: an optional sign, digits with
    an optional decimal point (at least one digit), and an optional
    exponent [e] or [E] followed by an integer. *)
Definition real (s : string) : option Q :=
  let (negative, body) := strip_sign s in
  let (mantissa, exponent) := cut is_exp body in
  let (int_part, after_dot) := cut is_dot mantissa in
  let frac_part := match after_dot with Some f => f | None => EmptyString end in
  let digits := int_part ++ frac_part in
  if negb (is_empty digits) && all_digits digits then
    match match exponent with
          | None => Some 0%Z
          | Some e => integer e
          end with
    | None => None
    | Some e =>
        let m := signed negative (digits_value 0 digits) in
        let scale := (e - Z.of_nat (String.length frac_part))%Z in
        Some (if (0 <=? scale)%Z
              then (m * 10 ^ scale) # 1
              else m # Z.to_pos (10 ^ (- scale)))
    end
  else None.

Definition coordinate (line : nat) (token : string) : result FormatError Q :=
  match real token with
  | Some q => Ok q
  | None => Raise (BadCoordinate line token)
  end.

(** Modelled from the spec: one atom line of [xyz_parse], which is not
    among the sources; exactly four whitespace-separated tokens, the
    symbol and three real numbers. *)
Definition parse_atom (line : nat) (text : string) : result FormatError Atom :=
  match tokens text with
  | [sym; tx; ty; tz] =>
      match coordinate line tx with
      | Raise e => Raise e
      | Ok vx =>
          match coordinate line ty with
          | Raise e => Raise e
          | Ok vy =>
              match coordinate line tz with
              | Raise e => Raise e
              | Ok vz => Ok {| symbol := sym; x := vx; y := vy; z := vz |}
              end
          end
      end
  | toks => Raise (WrongTokenCount line (List.length toks))
  end.

(** Modelled from the spec: the atom lines of [xyz_parse], which is not
    among the sources: every line after the comment line is an atom line,
    read in order from line number [line]. *)
Fixpoint read_atoms (line : nat) (ls : list string)
  : result FormatError (list Atom) :=
  match ls with
  | [] => Ok []
  | l :: ls' =>
      match parse_atom line l with
      | Raise e => Raise e
      | Ok a =>
          match read_atoms (S line) ls' with
          | Raise e => Raise e
          | Ok rest => Ok (a :: rest)
          end
      end
  end.

(** Modelled from the spec: [xyz_parse.Molecule.parse], which is not
    among the sources (spec 3, 4.1, 6 and 8): line 1 is the non-negative
    atom count [N], line 2 the comment, taken as it is, and the lines
    after it are the atoms; the number of atoms must be the declared
    count exactly, and a text with fewer or more atom lines is refused. *)
Definition parse (text : string) : result FormatError Molecule :=
  match lines text with
  | [] => Raise MissingHeader
  | header :: rest =>
      match integer header with
      | None => Raise (BadHeader header)
      | Some n =>
          if (n <? 0)%Z then Raise (BadHeader header)
          else
            match rest with
            | [] => Raise MissingComment
            | c :: atom_lines =>
                match read_atoms 3 atom_lines with
                | Raise e => Raise e
                | Ok l =>
                    if (List.length l =? Z.to_nat n)%nat
                    then Ok {| comment := c; atoms := l |}
                    else Raise (WrongAtomCount (List.length l) (Z.to_nat n))
                end
            end
      end
  end.

(** The count the header declares, and the lines after the comment. *)
Definition declared_count (text : string) : option Z :=
  match lines text with
  | header :: _ => integer header
  | [] => None
  end.

Definition atom_lines (text : string) : list string :=
  skipn 2 (lines text).

(** The cell tagged [parameters]. *)
Definition input : string :=
"2
Sample H2 molecule
H 0.3710 0.0 0.0
H -0.3710 0.0 0.0".

End GeometryParser.

(** ** Collaborators for the examples

    A cost function on a quadratic bowl, [theta * theta], and gradient
    descent on it ([GradientDescentOptimizer(stepsize)], whose
    [step_and_cost] returns the objective's value at the parameters it was
    given).  The backend counts the circuit executions; with a budget, the
    device stops answering once the budget is spent. *)

Module Bowl.

Inductive Failure : Type := DeviceUnavailable.

Definition cost_fn (budget : option nat) (theta : float)
  : nat -> nat * result Failure float :=
  fun executions =>
    match budget with
    | Some b =>
        if (b <=? executions)%nat then (executions, Raise DeviceUnavailable)
        else (S executions, Ok (theta * theta)%float)
    | None => (S executions, Ok (theta * theta)%float)
    end.

Definition step_and_cost (stepsize : float)
  (objective_fn : float -> nat -> nat * result Failure float) (theta : float)
  : nat -> nat * result Failure (float * float) :=
  fun executions =>
    match objective_fn theta executions with
    | (w, Raise f) => (w, Raise f)
    | (w, Ok forward) => (w, Ok ((theta - stepsize * (2 * theta))%float, forward))
    end.

End Bowl.

(** ** The convergence loop *)

Module VQE.

Local Open Scope nat_scope.

(** What Python raises in the cells modelled here: a [NameError] when a
  name is read before it is bound, a [TypeError] when a value is formatted
  with a format specification its type does not support, or whatever a
  collaborator raised. *)
Inductive exn (Failure : Type) : Type :=
| NameError (name : string)
| TypeError (name : string)
| Collaborator (f : Failure).

Arguments NameError {Failure} name.
Arguments TypeError {Failure} name.
Arguments Collaborator {Failure} f.

Section Loop.

(** The backend the collaborators run on (device, random state): a call
    reads and changes it, so two evaluations at the same parameters may
    differ. *)
Variable World : Type.
(** The circuit parameters, [theta]. *)
Variable Param : Type.
(** What [cost_fn] and [optimizer.step_and_cost] may raise. *)
Variable Failure : Type.

Definition call (A : Type) : Type := World -> World * result Failure A.

Variable cost_fn : Param -> call float.
Variable step_and_cost : (Param -> call float) -> Param -> call (Param * float).
Variable convergence_tolerance : float.
(** Whether a float format specification such as [.4f] applies to a value
    of [theta]: it does to a Python float and to a zero-dimensional array,
    as the notebook's [np.array(np.pi / 2)]; formatting an array of one or
    more dimensions with it raises [TypeError]. *)
Variable formats_as_float : Param -> bool.

(** The names the loop cell binds.  [theta] is bound by an earlier cell;
    [prev_energy], [energy] and the loop variable [_] are bound by the
    loop body only. *)
Record namespace : Type := Namespace {
  theta : Param;
  prev_energy : option float;
  energy : option float;
  loop_index : option nat
}.

(** The calls the loop makes to its collaborators, with what each
    returned or raised. *)
Inductive event : Type :=
| StepAndCost (at_theta : Param) (r : result Failure (Param * float))
| CostFn (at_theta : Param) (r : result Failure float).

Record state : Type := State {
  ns : namespace;
  backend : World;
  calls : list event
}.

(** [np.abs(energy - prev_energy) <= convergence_tolerance] *)
Definition within_tolerance (energy prev_energy : float) : bool :=
  PrimFloat.leb (PrimFloat.abs (PrimFloat.sub energy prev_energy))
                convergence_tolerance.

(** How the [for] statement was left. *)
Inductive exit : Type := Break | Exhausted.

(** [for _ in range(max_iterations): ...] with [remaining] values of the
    range left, the next one being [i]. *)
Fixpoint for_loop (remaining i : nat) (st : state)
  : state * result (exn Failure) exit :=
  match remaining with
  | O => (st, Ok Exhausted)
  | S remaining' =>
      let n0 := ns st in
      let n1 := Namespace (theta n0) (prev_energy n0) (energy n0) (Some i) in
      match step_and_cost cost_fn (theta n1) (backend st) with
      | (w1, Raise f) =>
          (State n1 w1 (calls st ++ [StepAndCost (theta n1) (Raise f)]),
           Raise (Collaborator f))
      | (w1, Ok (theta', prev')) =>
          let n2 := Namespace theta' (Some prev') (energy n1) (loop_index n1) in
          let log := calls st ++ [StepAndCost (theta n1) (Ok (theta', prev'))] in
          match cost_fn (theta n2) w1 with
          | (w2, Raise f) =>
              (State n2 w2 (log ++ [CostFn (theta n2) (Raise f)]),
               Raise (Collaborator f))
          | (w2, Ok energy') =>
              let n3 := Namespace (theta n2) (prev_energy n2) (Some energy')
                                  (loop_index n2) in
              let st3 := State n3 w2 (log ++ [CostFn (theta n2) (Ok energy')]) in
              if within_tolerance energy' prev'
              then (st3, Ok Break)
              else for_loop remaining' (S i) st3
          end
      end
  end.

(** The notebook when the loop cell starts, run top to bottom on a fresh
    kernel: only [theta] is bound. *)
Definition initial (theta0 : Param) (w : World) : state :=
  State (Namespace theta0 None None None) w [].

(** Reading a name. *)
Definition read (name : string) (A : Type) (v : option A)
  : result (exn Failure) A :=
  match v with
  | Some a => Ok a
  | None => Raise (NameError name)
  end.

(** What the run hands on: the spec's [OptimizationResult].  The notebook
    has no such object; its fields are read off what the loop cell
    leaves behind: [theta] and [energy] as the two [print]s read them,
    the number of the last pass counted from one ([_ + 1]), and whether
    the loop was left by [break]. *)
Record OptimizationResult : Type := {
  finalParameters : Param;
  finalCost : float;
  iterationsRun : nat;
  converged : bool
}.

Definition passes_started (n : namespace) : nat :=
  match loop_index n with
  | Some i => S i
  | None => O
  end.

Definition left_by_break (e : exit) : bool :=
  match e with
  | Break => true
  | Exhausted => false
  end.

(** A replacement field of an f-string with a float format
    specification, as [{theta:.4f}]. *)
Definition format_float (name : string) (v : Param)
  : result (exn Failure) unit :=
  if formats_as_float v then Ok tt else Raise (TypeError name).

(** The loop cell: the loop, then the two [print]s.  The first reads
    [energy], a float, and formats it with [.8f]; the second formats
    [theta] with [.4f]. *)
Definition optimize (theta0 : Param) (max_iterations : nat) (w : World)
  : state * result (exn Failure) OptimizationResult :=
  match for_loop max_iterations 0 (initial theta0 w) with
  | (st, Raise e) => (st, Raise e)
  | (st, Ok e) =>
      match read "energy" (energy (ns st)) with
      | Raise err => (st, Raise err)
      | Ok en =>
          match format_float "theta" (theta (ns st)) with
          | Raise err => (st, Raise err)
          | Ok _ =>
              (st, Ok {| finalParameters := theta (ns st);
                         finalCost := en;
                         iterationsRun := passes_started (ns st);
                         converged := left_by_break e |})
          end
      end
  end.

(** The last cell, [output = float(energy)], after the loop cell. *)
Definition pipeline (theta0 : Param) (max_iterations : nat) (w : World)
  : state * result (exn Failure) float :=
  match optimize theta0 max_iterations w with
  | (st, Raise e) => (st, Raise e)
  | (st, Ok _) => (st, read "energy" (energy (ns st)))
  end.

(** *** The loop, declaratively

    One pass of the loop body whose two calls returned: the optimizer's
    step at [theta_before] on the backend [world_before], then the cost
    function at the parameters the step produced, on the backend the step
    left. *)
Record iteration : Type := Iteration {
  theta_before : Param;
  world_before : World;
  world_stepped : World;
  theta_after : Param;
  previousCost : float;
  world_after : World;
  currentCost : float
}.

Definition performed (it : iteration) : Prop :=
  step_and_cost cost_fn (theta_before it) (world_before it)
    = (world_stepped it, Ok (theta_after it, previousCost it))
  /\ cost_fn (theta_after it) (world_stepped it)
    = (world_after it, Ok (currentCost it)).

(** Consecutive passes from the parameters [th] and the backend [w]. *)
Fixpoint chained (th : Param) (w : World) (its : list iteration) : Prop :=
  match its with
  | [] => True
  | it :: rest =>
      theta_before it = th /\ world_before it = w /\ performed it
      /\ chained (theta_after it) (world_after it) rest
  end.

Definition events_of (it : iteration) : list event :=
  [StepAndCost (theta_before it) (Ok (theta_after it, previousCost it));
   CostFn (theta_after it) (Ok (currentCost it))].

(** The stopping test of a pass. *)
Definition stops (it : iteration) : bool :=
  within_tolerance (currentCost it) (previousCost it).

(** What pass number [i] (counted from zero) binds. *)
Definition bound (i : nat) (it : iteration) : namespace :=
  Namespace (theta_after it) (Some (previousCost it)) (Some (currentCost it))
            (Some i).

(** The state after the passes [its], the first of them being pass [i]. *)
Fixpoint after (i : nat) (st : state) (its : list iteration) : state :=
  match its with
  | [] => st
  | it :: rest =>
      after (S i) (State (bound i it) (world_after it) (calls st ++ events_of it))
            rest
  end.

(** How a pass that does not go on to the next one ends: the test holds,
    or one of the two calls raises. *)
Inductive ending (i : nat) (st : state)
  : state -> result (exn Failure) exit -> Prop :=
| ends_by_break (it : iteration) :
    chained (theta (ns st)) (backend st) [it] ->
    stops it = true ->
    ending i st (after i st [it]) (Ok Break)
| ends_in_step (w1 : World) (f : Failure) :
    step_and_cost cost_fn (theta (ns st)) (backend st) = (w1, Raise f) ->
    ending i st
      (State (Namespace (theta (ns st)) (prev_energy (ns st)) (energy (ns st))
                        (Some i))
             w1 (calls st ++ [StepAndCost (theta (ns st)) (Raise f)]))
      (Raise (Collaborator f))
| ends_in_cost (w1 : World) (th : Param) (p : float) (w2 : World) (f : Failure) :
    step_and_cost cost_fn (theta (ns st)) (backend st) = (w1, Ok (th, p)) ->
    cost_fn th w1 = (w2, Raise f) ->
    ending i st
      (State (Namespace th (Some p) (energy (ns st)) (Some i)) w2
             (calls st ++ [StepAndCost (theta (ns st)) (Ok (th, p));
                           CostFn th (Raise f)]))
      (Raise (Collaborator f)).

(** A run of at most [n] passes from pass [i]: the passes [its] whose test
    failed, then either the range is exhausted or a last pass ends it. *)
Inductive run_from (n i : nat) (st : state) (its : list iteration)
  : state -> result (exn Failure) exit -> Prop :=
| run_exhausted :
    List.length its = n ->
    run_from n i st its (after i st its) (Ok Exhausted)
| run_ended (st' : state) (r : result (exn Failure) exit) :
    List.length its < n ->
    ending (i + List.length its) (after i st its) st' r ->
    run_from n i st its st' r.

(** The state of the notebook, run from a fresh kernel, after the passes
    [its] of the loop. *)
Definition reached (theta0 : Param) (w : World) (its : list iteration)
  : state :=
  after 0 (initial theta0 w) its.

(** What the loop cell hands on when its last pass is [it], the pass
    number [passes] counted from one: the result read off the names,
    unless the second [print] cannot format [theta]. *)
Definition reported (it : iteration) (passes : nat) (stopped : bool)
  : result (exn Failure) OptimizationResult :=
  if formats_as_float (theta_after it)
  then Ok {| finalParameters := theta_after it;
             finalCost := currentCost it;
             iterationsRun := passes;
             converged := stopped |}
  else Raise (TypeError "theta").

(** The optimizer steps that returned. *)
Definition is_completed_step (ev : event) : bool :=
  match ev with
  | StepAndCost _ (Ok _) => true
  | _ => false
  end.

Definition steps_completed (log : list event) : nat :=
  List.length (filter is_completed_step log).

(** The call an event records, made on the backend [w] and leaving [w']. *)
Definition records (ev : event) (w w' : World) : Prop :=
  match ev with
  | StepAndCost th r => step_and_cost cost_fn th w = (w', r)
  | CostFn th r => cost_fn th w = (w', r)
  end.

(** Collaborators whose calls all return. *)
Definition always_return : Prop :=
  (forall th w, exists w' c, cost_fn th w = (w', Ok c))
  /\ (forall th w, exists w' th' p,
         step_and_cost cost_fn th w = (w', Ok (th', p))).

(** The calls of a log made one after the other from the backend [w],
    each returning or raising what the log says, and leaving [w']. *)
Fixpoint replayed (log : list event) (w w' : World) : Prop :=
  match log with
  | [] => w = w'
  | ev :: rest => exists w1, records ev w w1 /\ replayed rest w1 w'
  end.

Definition is_step (ev : event) : bool :=
  match ev with
  | StepAndCost _ _ => true
  | CostFn _ _ => false
  end.

(** The calls of [optimizer.step_and_cost], and the calls of [cost_fn] the
    loop makes itself. *)
Definition steps_attempted (log : list event) : nat :=
  List.length (filter is_step log).

Definition cost_evaluations (log : list event) : nat :=
  List.length (filter (fun ev => negb (is_step ev)) log).

(** The latest values the calls of a log returned: the parameters and the
    cost of the last optimizer step that returned, and the last cost the
    loop's own evaluation returned; [th], [p] and [e] when there is none. *)
Fixpoint latest_parameters (th : Param) (log : list event) : Param :=
  match log with
  | [] => th
  | StepAndCost _ (Ok (th', _)) :: rest => latest_parameters th' rest
  | _ :: rest => latest_parameters th rest
  end.

Fixpoint latest_step_cost (p : option float) (log : list event)
  : option float :=
  match log with
  | [] => p
  | StepAndCost _ (Ok (_, p')) :: rest => latest_step_cost (Some p') rest
  | _ :: rest => latest_step_cost p rest
  end.

Fixpoint latest_energy (e : option float) (log : list event) : option float :=
  match log with
  | [] => e
  | CostFn _ (Ok e') :: rest => latest_energy (Some e') rest
  | _ :: rest => latest_energy e rest
  end.

(** Two states that differ at most in the loop variable [_]. *)
Definition same_but_index (st1 st2 : state) : Prop :=
  theta (ns st1) = theta (ns st2)
  /\ prev_energy (ns st1) = prev_energy (ns st2)
  /\ energy (ns st1) = energy (ns st2)
  /\ backend st1 = backend st2
  /\ calls st1 = calls st2.

(** *** The loop follows the declarative reading *)

Lemma for_loop_sound (n : nat) :
  forall i st st' r,
    for_loop n i st = (st', r) ->
    exists its,
      chained (theta (ns st)) (backend st) its
      /\ Forall (fun it => stops it = false) its
      /\ run_from n i st its st' r.
Proof.
  induction n as [|n IH]; intros i st st' r H; simpl in H.
  - inversion H; subst. exists []. repeat split; auto.
    apply run_exhausted. reflexivity.
  - destruct (step_and_cost cost_fn (theta (ns st)) (backend st))
      as [w1 [[th p]|f]] eqn:Hs; simpl in H.
    + destruct (cost_fn th w1) as [w2 [c|f]] eqn:Hc.
      * pose (it := Iteration (theta (ns st)) (backend st) w1 th p w2 c).
        rewrite <- app_assoc in H. simpl in H.
        destruct (within_tolerance c p) eqn:Ht.
        -- inversion H; subst. exists []. repeat split; auto.
           apply run_ended; simpl; [lia|]. rewrite Nat.add_0_r.
           refine (@ends_by_break i st it _ _); simpl; auto.
           repeat split; auto.
        -- apply IH in H. destruct H as (its & Hch & Hall & Hrun).
           simpl in Hch. exists (it :: its). split; [|split].
           ++ simpl. repeat split; auto.
           ++ constructor; auto.
           ++ destruct Hrun as [Hlen | st'' r'' Hlt Hend].
              ** refine (@run_exhausted (S n) i st (it :: its) _).
                 simpl. lia.
              ** refine (@run_ended (S n) i st (it :: its) st'' r'' _ _);
                   simpl; [lia|].
                 rewrite Nat.add_succ_r. assumption.
      * inversion H; subst. exists []. repeat split; auto.
        apply run_ended; simpl; [lia|]. rewrite Nat.add_0_r.
        rewrite <- app_assoc. simpl.
        eapply ends_in_cost; eassumption.
    + inversion H; subst. exists []. repeat split; auto.
      apply run_ended; simpl; [lia|]. rewrite Nat.add_0_r.
      eapply ends_in_step; eassumption.
Qed.

Lemma for_loop_continues (its : list iteration) :
  forall n i st,
    chained (theta (ns st)) (backend st) its ->
    Forall (fun it => stops it = false) its ->
    for_loop (List.length its + n) i st
    = for_loop n (i + List.length its) (after i st its).
Proof.
  induction its as [|it its IH]; intros n i st Hch Hall; simpl.
  - rewrite Nat.add_0_r. reflexivity.
  - destruct Hch as (Hth & Hw & (Hs & Hc) & Hch).
    inversion Hall as [|? ? Hstop Hall']; subst.
    rewrite Hth, Hw in Hs. rewrite Hs. simpl. rewrite Hc.
    unfold stops in Hstop. rewrite Hstop.
    rewrite <- app_assoc. simpl.
    rewrite Nat.add_succ_r. rewrite <- Hth.
    apply (IH n (S i)); assumption.
Qed.

Lemma ending_complete (n i : nat) (st st' : state)
  (r : result (exn Failure) exit) :
  ending i st st' r -> for_loop (S n) i st = (st', r).
Proof.
  intros [it (Hth & Hw & (Hs & Hc) & _) Hstop | w1 f Hs | w1 th p w2 f Hs Hc];
    simpl.
  - rewrite Hth, Hw in Hs. rewrite Hs. simpl. rewrite Hc.
    unfold stops in Hstop. rewrite Hstop.
    rewrite <- app_assoc. simpl. rewrite <- Hth. reflexivity.
  - rewrite Hs. reflexivity.
  - rewrite Hs. simpl. rewrite Hc. rewrite <- app_assoc. reflexivity.
Qed.

Lemma for_loop_complete (n i : nat) (st st' : state) (its : list iteration)
  (r : result (exn Failure) exit) :
  chained (theta (ns st)) (backend st) its ->
  Forall (fun it => stops it = false) its ->
  run_from n i st its st' r ->
  for_loop n i st = (st', r).
Proof.
  intros Hch Hall [Hlen | st'' r'' Hlt Hend].
  - subst n. rewrite <- (Nat.add_0_r (List.length its)).
    rewrite for_loop_continues by assumption. reflexivity.
  - replace n with (List.length its + S (n - S (List.length its))) by lia.
    rewrite for_loop_continues by assumption.
    apply ending_complete. assumption.
Qed.

(** *** What the passes leave behind *)

Lemma after_app (its its' : list iteration) :
  forall i st,
    after i st (its ++ its') = after (i + List.length its) (after i st its) its'.
Proof.
  induction its as [|it its IH]; intros i st; simpl.
  - rewrite Nat.add_0_r. reflexivity.
  - rewrite IH. rewrite Nat.add_succ_r. reflexivity.
Qed.

Lemma calls_after (its : list iteration) :
  forall i st, calls (after i st its) = calls st ++ flat_map events_of its.
Proof.
  induction its as [|it its IH]; intros i st; simpl.
  - rewrite app_nil_r. reflexivity.
  - rewrite IH. simpl. rewrite <- app_assoc. reflexivity.
Qed.

Lemma chained_app (its its' : list iteration) :
  forall th w,
    chained th w (its ++ its') <->
    chained th w its
    /\ chained (theta (ns (after 0 (State (Namespace th None None None) w []) its)))
               (backend (after 0 (State (Namespace th None None None) w []) its))
               its'.
Proof.
  clear formats_as_float.
  assert (G : forall i st th w,
             theta (ns st) = th -> backend st = w ->
             (chained th w (its ++ its') <->
              chained th w its
              /\ chained (theta (ns (after i st its))) (backend (after i st its))
                         its')).
  { induction its as [|it its IH]; intros i st th w Hth Hw; simpl.
    - subst. tauto.
    - rewrite (IH (S i)
                 (State (bound i it) (world_after it) (calls st ++ events_of it))
                 (theta_after it) (world_after it)) by reflexivity.
      tauto. }
  intros th w. apply G; reflexivity.
Qed.

Lemma ns_after_last (its : list iteration) (it : iteration) (i : nat)
  (st : state) :
  ns (after i st (its ++ [it])) = bound (i + List.length its) it
  /\ backend (after i st (its ++ [it])) = world_after it.
Proof.
  rewrite after_app. simpl. auto.
Qed.

Lemma steps_completed_passes (its : list iteration) :
  steps_completed (flat_map events_of its) = List.length its.
Proof.
  induction its as [|it its IH]; simpl; [reflexivity|].
  unfold steps_completed in *. simpl. rewrite IH. reflexivity.
Qed.

(** A run that returns made no pass at all, or returns after a last
    pass: the one whose test held, or pass number [n]. *)
Lemma for_loop_returns (n : nat) (theta0 : Param) (w : World) (st : state)
  (e : exit) :
  for_loop n 0 (initial theta0 w) = (st, Ok e) ->
  (n = 0 /\ st = initial theta0 w /\ e = Exhausted)
  \/ exists its it,
       chained theta0 w (its ++ [it])
       /\ Forall (fun it => stops it = false) its
       /\ List.length its < n
       /\ st = after 0 (initial theta0 w) (its ++ [it])
       /\ (if stops it then e = Break
           else e = Exhausted /\ S (List.length its) = n).
Proof.
  intros H. destruct (for_loop_sound _ _ _ H) as (its & Hch & Hall & Hrun).
  simpl in Hch.
  inversion Hrun as [Hlen Hst He | st' r' Hlt Hend Hst Hr]; subst.
  - destruct its as [|a l]; [left; auto|right].
    destruct (@exists_last _ (a :: l)) as (its & it0 & Heq); [discriminate|].
    rewrite Heq in *. clear Heq.
    exists its, it0. apply Forall_app in Hall. destruct Hall as [Hall Hlast].
    inversion Hlast as [|? ? Hstop ?]; subst. rewrite length_app. simpl.
    repeat split; auto; try lia.
    rewrite Hstop. split; auto. lia.
  - right. inversion Hend as [it Hit Hstop Hst He | |]; subst.
    exists its, it. repeat split; auto.
    + apply chained_app. split; assumption.
    + rewrite after_app. reflexivity.
    + rewrite Hstop. reflexivity.
Qed.

Lemma for_loop_total (Hret : always_return) (n : nat) :
  forall i st, exists st' e, for_loop n i st = (st', Ok e).
Proof.
  destruct Hret as [Hcost Hstep].
  induction n as [|n IH]; intros i st; simpl.
  - eauto.
  - destruct (Hstep (theta (ns st)) (backend st)) as (w1 & th & p & ->).
    simpl. destruct (Hcost th w1) as (w2 & c & ->).
    destruct (within_tolerance c p); eauto.
Qed.

(** What [optimize] returns after the passes [its ++ [it]]. *)
Lemma optimize_after (theta0 : Param) (n : nat) (w : World)
  (its : list iteration) (it : iteration) (e : exit) :
  for_loop n 0 (initial theta0 w)
  = (after 0 (initial theta0 w) (its ++ [it]), Ok e) ->
  optimize theta0 n w
  = (after 0 (initial theta0 w) (its ++ [it]),
     reported it (S (List.length its)) (left_by_break e)).
Proof.
  intros H. unfold optimize. rewrite H.
  destruct (ns_after_last its it 0 (initial theta0 w)) as [Hns _].
  unfold passes_started, reported, format_float. rewrite Hns. simpl.
  destruct (formats_as_float (theta_after it)); reflexivity.
Qed.

(** What [optimize] returns, read off the last pass. *)
Lemma optimize_returns (theta0 : Param) (n : nat) (w : World) (st : state)
  (res : OptimizationResult) :
  optimize theta0 n w = (st, Ok res) ->
  exists its it,
    chained theta0 w (its ++ [it])
    /\ Forall (fun it' => stops it' = false) its
    /\ List.length its < n
    /\ st = after 0 (initial theta0 w) (its ++ [it])
    /\ res = {| finalParameters := theta_after it;
                finalCost := currentCost it;
                iterationsRun := S (List.length its);
                converged := stops it |}
    /\ (stops it = false -> S (List.length its) = n).
Proof.
  intros H.
  destruct (for_loop n 0 (initial theta0 w)) as [st0 [e|e]] eqn:Hl.
  2: { unfold optimize in H. rewrite Hl in H. discriminate. }
  destruct (for_loop_returns _ _ _ Hl)
    as [(_ & -> & _) | (its & it & Hch & Hall & Hlt & -> & He)].
  - unfold optimize in H. rewrite Hl in H. simpl in H. discriminate.
  - rewrite (@optimize_after theta0 n w its it e Hl) in H.
    unfold reported in H.
    destruct (formats_as_float (theta_after it)); [|discriminate].
    inversion H; subst. exists its, it.
    repeat split; auto.
    + destruct (stops it); [subst; reflexivity|].
      destruct He as [-> _]. reflexivity.
    + intros Hs. rewrite Hs in He. apply He.
Qed.

(** The state [optimize] ends in is the one the loop ends in. *)
Lemma optimize_state (theta0 : Param) (n : nat) (w : World) (st : state)
  (r : result (exn Failure) OptimizationResult) :
  optimize theta0 n w = (st, r) ->
  exists r0,
    for_loop n 0 (initial theta0 w) = (st, r0)
    /\ match r0 with
       | Raise e => r = Raise e
       | Ok x =>
           match energy (ns st) with
           | Some en =>
               r = if formats_as_float (theta (ns st))
                   then Ok {| finalParameters := theta (ns st);
                              finalCost := en;
                              iterationsRun := passes_started (ns st);
                              converged := left_by_break x |}
                   else Raise (TypeError "theta")
           | None => r = Raise (NameError "energy")
           end
       end.
Proof.
  unfold optimize, format_float. intros H.
  destruct (for_loop n 0 (initial theta0 w)) as [st0 [x|e]].
  - destruct (energy (ns st0)) as [en|] eqn:E; simpl in H.
    + destruct (formats_as_float (theta (ns st0))) eqn:F;
        inversion H; subst; exists (Ok x); rewrite E, F; auto.
    + inversion H; subst. exists (Ok x). rewrite E. auto.
  - inversion H; subst. exists (Raise e). auto.
Qed.

(** The pipeline after the loop cell: [float(energy)] of a float. *)
Lemma pipeline_after (theta0 : Param) (n : nat) (w : World)
  (its : list iteration) (it : iteration) (e : exit) :
  for_loop n 0 (initial theta0 w)
  = (after 0 (initial theta0 w) (its ++ [it]), Ok e) ->
  pipeline theta0 n w
  = (after 0 (initial theta0 w) (its ++ [it]),
     if formats_as_float (theta_after it) then Ok (currentCost it)
     else Raise (TypeError "theta")).
Proof.
  intros H. unfold pipeline.
  rewrite (@optimize_after theta0 n w its it e H).
  unfold reported.
  destruct (ns_after_last its it 0 (initial theta0 w)) as [Hns _].
  destruct (formats_as_float (theta_after it)); [|reflexivity].
  rewrite Hns. reflexivity.
Qed.

(** *** Properties of the loop *)

(** C1.  Every run of the loop, whether it returns or raises, is a
    sequence of completed passes from the initial parameters and backend,
    each the optimizer's [step_and_cost] at the current parameters and
    then [cost_fn] at the parameters that step returned, on the backend
    the step left (a fresh evaluation).  A run that returns ends in the
    state these passes leave; a run that raises made, after them, the one
    call that raised, preceded in its pass by the step when it is the
    evaluation that raised.  At every completed pass the loop stops by
    [break] exactly when the absolute difference of the cost just
    evaluated and the cost the step returned for the old parameters is at
    most the tolerance. *)
Theorem convergence_compares_cost_after_with_cost_before
  (theta0 : Param) (w : World) (max_iterations : nat) (st : state)
  (r : result (exn Failure) exit) :
  for_loop max_iterations 0 (initial theta0 w) = (st, r) ->
  exists its : list iteration,
    chained theta0 w its
    /\ List.length its <= max_iterations
    /\ calls (reached theta0 w its) = flat_map events_of its
    /\ match r with
       | Ok _ => st = reached theta0 w its
       | Raise x =>
           exists f,
             x = Collaborator f
             /\ loop_index (ns st) = Some (List.length its)
             /\ ((step_and_cost cost_fn (theta (ns (reached theta0 w its)))
                                (backend (reached theta0 w its))
                  = (backend st, Raise f)
                  /\ calls st
                     = flat_map events_of its
                       ++ [StepAndCost (theta (ns (reached theta0 w its)))
                                       (Raise f)])
                 \/ (exists w1 th p,
                        step_and_cost cost_fn
                                      (theta (ns (reached theta0 w its)))
                                      (backend (reached theta0 w its))
                        = (w1, Ok (th, p))
                        /\ cost_fn th w1 = (backend st, Raise f)
                        /\ calls st
                           = flat_map events_of its
                             ++ [StepAndCost
                                   (theta (ns (reached theta0 w its)))
                                   (Ok (th, p));
                                 CostFn th (Raise f)]))
       end
    /\ forall k it,
         nth_error its k = Some it ->
         (PrimFloat.leb
            (PrimFloat.abs (PrimFloat.sub (currentCost it) (previousCost it)))
            convergence_tolerance = true
          <-> S k = List.length its /\ r = Ok Break).
Proof.
  intros H. destruct (for_loop_sound _ _ _ H) as (its & Hch & Hall & Hrun).
  simpl in Hch.
  assert (Hfail : forall k it, nth_error its k = Some it ->
                               stops it = false).
  { intros k it Hk. rewrite Forall_forall in Hall. apply Hall.
    eapply nth_error_In; eassumption. }
  assert (Hgo : forall r0 : result (exn Failure) exit,
             r0 <> Ok Break ->
             forall k it,
               nth_error its k = Some it ->
               (PrimFloat.leb
                  (PrimFloat.abs
                     (PrimFloat.sub (currentCost it) (previousCost it)))
                  convergence_tolerance = true
                <-> S k = List.length its /\ r0 = Ok Break)).
  { intros r0 Hr0 k it Hk. split.
    - intros Ht. apply Hfail in Hk. unfold stops, within_tolerance in Hk.
      congruence.
    - intros [_ Hr]. contradiction. }
  assert (Hcalls : forall l, calls (reached theta0 w l) = flat_map events_of l).
  { intros l. unfold reached. rewrite calls_after. reflexivity. }
  inversion Hrun as [Hlen Hst He | st' r' Hlt Hend Hst Hr]; subst.
  - exists its. split; [assumption|]. split; [lia|].
    split; [apply Hcalls|]. split; [reflexivity|].
    apply Hgo. discriminate.
  - inversion Hend as [it Hit Hstop Hst He
                      | w1 f Hs Hst He
                      | w1 th p w2 f Hs Hc Hst He]; subst.
    + exists (its ++ [it]).
      split; [apply chained_app; split; assumption|].
      split; [rewrite length_app; simpl; lia|].
      split; [apply Hcalls|].
      split; [unfold reached; rewrite after_app; reflexivity|].
      intros k it' Hk. split.
      * intros Ht.
        destruct (Nat.lt_ge_cases k (List.length its)) as [Hlt' | Hge].
        -- rewrite nth_error_app1 in Hk by assumption.
           apply Hfail in Hk. unfold stops, within_tolerance in Hk.
           congruence.
        -- assert (k < List.length (its ++ [it]))
             by (apply nth_error_Some; congruence).
           rewrite length_app in *. simpl in *. split; [lia|reflexivity].
      * intros [Hlen _]. rewrite length_app in Hlen. simpl in Hlen.
        assert (k = List.length its) by lia. subst k.
        rewrite nth_error_app2, Nat.sub_diag in Hk by lia.
        simpl in Hk. inversion Hk; subst. exact Hstop.
    + exists its. split; [assumption|]. split; [lia|].
      split; [apply Hcalls|]. split; [|apply Hgo; discriminate].
      exists f. split; [reflexivity|]. split; [reflexivity|].
      left. simpl. rewrite <- Hcalls. split; [exact Hs|reflexivity].
    + exists its. split; [assumption|]. split; [lia|].
      split; [apply Hcalls|]. split; [|apply Hgo; discriminate].
      exists f. split; [reflexivity|]. split; [reflexivity|].
      right. exists w1, th, p. simpl. rewrite <- Hcalls.
      split; [exact Hs|]. split; [exact Hc|reflexivity].
Qed.

(** C2.  Whenever the loop cell returns, the iteration count it leaves
    (the number of the last pass, counted from one) is the number of
    optimizer steps that returned, whether the loop was left by [break] or
    by exhausting the range; the count is at least one and the loop
    variable holds it less one. *)
Theorem iterations_run_is_completed_steps
  (theta0 : Param) (max_iterations : nat) (w : World) (st : state)
  (res : OptimizationResult) :
  optimize theta0 max_iterations w = (st, Ok res) ->
  iterationsRun res = steps_completed (calls st)
  /\ 1 <= iterationsRun res <= max_iterations
  /\ loop_index (ns st) = Some (iterationsRun res - 1).
Proof.
  intros H.
  destruct (optimize_returns _ _ _ H)
    as (its & it & _ & _ & Hlt & -> & -> & _).
  simpl.
  destruct (ns_after_last its it 0 (initial theta0 w)) as [Hns _].
  rewrite calls_after. simpl. rewrite steps_completed_passes.
  rewrite length_app. simpl. rewrite Hns. simpl.
  repeat split; try lia. f_equal. lia.
Qed.

(** C3.  When [max_iterations] (at least one) passes complete and the test
    fails at each of them, the loop ends normally, by exhausting its
    range: it does not raise and was not left by [break], and it made
    [max_iterations] optimizer steps.  The loop cell then hands on the
    cost and the parameters of the last pass with [converged = false] and
    the iteration count [max_iterations]; only a [theta] the second
    [print] cannot format makes that [print] raise [TypeError]
    instead. *)
Theorem exhausted_run_returns_not_converged
  (theta0 : Param) (max_iterations : nat) (w : World)
  (its : list iteration) :
  1 <= max_iterations ->
  chained theta0 w its ->
  List.length its = max_iterations ->
  Forall (fun it => stops it = false) its ->
  exists it,
    nth_error its (max_iterations - 1) = Some it
    /\ for_loop max_iterations 0 (initial theta0 w)
       = (reached theta0 w its, Ok Exhausted)
    /\ steps_completed (calls (reached theta0 w its)) = max_iterations
    /\ passes_started (ns (reached theta0 w its)) = max_iterations
    /\ theta (ns (reached theta0 w its)) = theta_after it
    /\ energy (ns (reached theta0 w its)) = Some (currentCost it)
    /\ optimize theta0 max_iterations w
       = (reached theta0 w its,
          if formats_as_float (theta_after it)
          then Ok {| finalParameters := theta_after it;
                     finalCost := currentCost it;
                     iterationsRun := max_iterations;
                     converged := false |}
          else Raise (TypeError "theta")).
Proof.
  intros Hpos Hch Hlen Hall. unfold reached.
  assert (Hl : for_loop max_iterations 0 (initial theta0 w)
               = (after 0 (initial theta0 w) its, Ok Exhausted)).
  { apply for_loop_complete with (its := its); auto.
    apply run_exhausted. assumption. }
  destruct its as [|a l]; [simpl in Hlen; lia|].
  destruct (@exists_last _ (a :: l)) as (its & it & Heq); [discriminate|].
  rewrite Heq in *. clear Heq a l.
  rewrite length_app in Hlen. simpl in Hlen.
  destruct (ns_after_last its it 0 (initial theta0 w)) as [Hns _].
  exists it. split.
  { rewrite nth_error_app2 by lia.
    replace (max_iterations - 1 - List.length its) with 0 by lia.
    reflexivity. }
  split; [exact Hl|].
  rewrite calls_after. simpl. rewrite steps_completed_passes.
  rewrite length_app, Hns. simpl.
  split; [lia|]. split; [unfold passes_started; simpl; lia|].
  split; [reflexivity|]. split; [reflexivity|].
  rewrite (@optimize_after theta0 max_iterations w its it Exhausted Hl).
  unfold reported. simpl.
  replace (S (List.length its)) with max_iterations by lia. reflexivity.
Qed.

(** C4.  With collaborators whose calls all return and
    [max_iterations >= 1], the loop ends after at least one and at most
    [max_iterations] completed passes, as many optimizer steps, and the
    loop cell hands on their result (only a [theta] the second [print]
    cannot format makes that [print] raise).  It stops at the first pass
    whose cost change is within the tolerance, or else makes all
    [max_iterations] passes: as soon as the cost change of a pass within
    the range is within the tolerance (as it comes to be for a cost that
    decreases towards a lower bound), the loop is left there by [break],
    reporting convergence with that pass as the iteration count. *)
Theorem optimize_terminates_within_max_iterations
  (theta0 : Param) (max_iterations : nat) (w : World) :
  1 <= max_iterations ->
  always_return ->
  exists its it,
    chained theta0 w (its ++ [it])
    /\ Forall (fun it' => stops it' = false) its
    /\ S (List.length its) <= max_iterations
    /\ (stops it = false -> S (List.length its) = max_iterations)
    /\ for_loop max_iterations 0 (initial theta0 w)
       = (reached theta0 w (its ++ [it]),
          Ok (if stops it then Break else Exhausted))
    /\ steps_attempted (calls (reached theta0 w (its ++ [it])))
       = S (List.length its)
    /\ optimize theta0 max_iterations w
       = (reached theta0 w (its ++ [it]),
          if formats_as_float (theta_after it)
          then Ok {| finalParameters := theta_after it;
                     finalCost := currentCost it;
                     iterationsRun := S (List.length its);
                     converged := stops it |}
          else Raise (TypeError "theta"))
    /\ forall its' it',
         chained theta0 w (its' ++ [it']) ->
         Forall (fun it'' => stops it'' = false) its' ->
         stops it' = true ->
         List.length its' < max_iterations ->
         stops it = true
         /\ List.length its = List.length its'
         /\ currentCost it = currentCost it'
         /\ theta_after it = theta_after it'.
Proof.
  intros Hpos Hret. unfold reached.
  destruct (for_loop_total Hret max_iterations 0 (initial theta0 w))
    as (st & e & Hl).
  destruct (for_loop_returns _ _ _ Hl)
    as [(-> & _) | (its & it & Hch & Hall & Hlt & -> & He)]; [lia|].
  assert (Hexit : e = if stops it then Break else Exhausted).
  { destruct (stops it); [exact He|apply He]. }
  exists its, it.
  split; [exact Hch|]. split; [exact Hall|]. split; [lia|].
  split. { intros Hs. rewrite Hs in He. apply He. }
  split; [rewrite <- Hexit; exact Hl|].
  split.
  { rewrite calls_after. simpl.
    assert (Hcount : forall l, steps_attempted (flat_map events_of l)
                               = List.length l).
    { unfold steps_attempted. induction l as [|x l IH]; simpl; auto. }
    rewrite Hcount, length_app. simpl. lia. }
  split.
  { rewrite (@optimize_after theta0 max_iterations w its it e Hl).
    unfold reported. rewrite Hexit.
    destruct (stops it); reflexivity. }
  intros its' it' Hch' Hall' Hstop' Hlt'.
  assert (Hl' : for_loop max_iterations 0 (initial theta0 w)
                = (after 0 (initial theta0 w) (its' ++ [it']), Ok Break)).
  { apply chained_app in Hch'. destruct Hch' as [Hch1 Hch2].
    apply for_loop_complete with (its := its'); auto.
    apply run_ended; [assumption|].
    rewrite after_app. simpl.
    refine (@ends_by_break _ _ it' _ _); assumption. }
  rewrite Hl in Hl'. inversion Hl' as [[Hst He']].
  assert (Hns : ns (after 0 (initial theta0 w) (its ++ [it]))
                = ns (after 0 (initial theta0 w) (its' ++ [it'])))
    by (rewrite Hst; reflexivity).
  destruct (ns_after_last its it 0 (initial theta0 w)) as [Hn1 _].
  destruct (ns_after_last its' it' 0 (initial theta0 w)) as [Hn2 _].
  rewrite Hn1, Hn2 in Hns. unfold bound in Hns. inversion Hns.
  rewrite He' in Hexit.
  split; [destruct (stops it); [reflexivity|discriminate]|].
  repeat split; auto.
Qed.

(** C5.  When, after some completed passes, a call the loop makes raises
    (the optimizer's step, or the evaluation at the parameters the step
    returned), the loop cell and the whole pipeline raise that same
    failure: no result and no output are produced.  The call that raised
    is the last call of the run and is made once: the calls are those of
    the completed passes followed by those of the unfinished pass, and
    the backend is left as the failing call left it. *)
Theorem failure_propagates_without_retry
  (theta0 : Param) (max_iterations : nat) (w w' : World)
  (its : list iteration) (f : Failure) (unfinished : list event) :
  chained theta0 w its ->
  Forall (fun it => stops it = false) its ->
  List.length its < max_iterations ->
  (step_and_cost cost_fn (theta (ns (reached theta0 w its)))
                 (backend (reached theta0 w its))
   = (w', Raise f)
   /\ unfinished
      = [StepAndCost (theta (ns (reached theta0 w its))) (Raise f)])
  \/ (exists w1 th p,
         step_and_cost cost_fn (theta (ns (reached theta0 w its)))
                       (backend (reached theta0 w its))
         = (w1, Ok (th, p))
         /\ cost_fn th w1 = (w', Raise f)
         /\ unfinished
            = [StepAndCost (theta (ns (reached theta0 w its))) (Ok (th, p));
               CostFn th (Raise f)]) ->
  exists st,
    for_loop max_iterations 0 (initial theta0 w)
    = (st, Raise (Collaborator f))
    /\ optimize theta0 max_iterations w = (st, Raise (Collaborator f))
    /\ pipeline theta0 max_iterations w = (st, Raise (Collaborator f))
    /\ backend st = w'
    /\ calls st = flat_map events_of its ++ unfinished
    /\ steps_attempted (calls st) = S (List.length its)
    /\ energy (ns st) = energy (ns (reached theta0 w its)).
Proof.
  unfold reached. intros Hch Hall Hlt Hfails.
  assert (Hcount : steps_attempted (flat_map events_of its)
                   = List.length its).
  { unfold steps_attempted. clear. induction its as [|x l IH]; simpl; auto. }
  assert (Happ : forall l l', steps_attempted (l ++ l')
                              = steps_attempted l + steps_attempted l').
  { intros l l'. unfold steps_attempted.
    rewrite filter_app, length_app. reflexivity. }
  assert (Hrun : forall st,
             ending (List.length its) (after 0 (initial theta0 w) its) st
                    (Raise (Collaborator f)) ->
             for_loop max_iterations 0 (initial theta0 w)
             = (st, Raise (Collaborator f))
             /\ optimize theta0 max_iterations w
                = (st, Raise (Collaborator f))
             /\ pipeline theta0 max_iterations w
                = (st, Raise (Collaborator f))).
  { intros st Hend.
    assert (Hl : for_loop max_iterations 0 (initial theta0 w)
                 = (st, Raise (Collaborator f))).
    { apply for_loop_complete with (its := its); auto.
      apply run_ended; assumption. }
    split; [exact Hl|].
    assert (Ho : optimize theta0 max_iterations w
                 = (st, Raise (Collaborator f)))
      by (unfold optimize; rewrite Hl; reflexivity).
    split; [exact Ho|]. unfold pipeline. rewrite Ho. reflexivity. }
  destruct Hfails as [(Hs & ->) | (w1 & th & p & Hs & Hc & ->)].
  - eexists. split; [|split; [|split]];
      [apply Hrun; eapply ends_in_step; exact Hs ..|].
    simpl. rewrite calls_after. simpl.
    rewrite Happ, Hcount. unfold steps_attempted. simpl.
    repeat split; auto. lia.
  - eexists. split; [|split; [|split]];
      [apply Hrun; eapply ends_in_cost; [exact Hs|exact Hc] ..|].
    simpl. rewrite calls_after. simpl.
    rewrite Happ, Hcount. unfold steps_attempted. simpl.
    repeat split; auto. lia.
Qed.

(** C9.  Whenever the pipeline returns, its output is the value the
    cost function returned in the last call of the run, made at the final
    parameters on the backend the last optimizer step left: the
    [currentCost] of the last pass, not the cost that step returned for
    the parameters before it. *)
Theorem output_is_cost_at_final_parameters
  (theta0 : Param) (max_iterations : nat) (w : World) (st : state)
  (output : float) :
  pipeline theta0 max_iterations w = (st, Ok output) ->
  exists before it,
    performed it
    /\ calls st = before ++ events_of it
    /\ theta (ns st) = theta_after it
    /\ backend st = world_after it
    /\ output = currentCost it
    /\ energy (ns st) = Some (currentCost it)
    /\ prev_energy (ns st) = Some (previousCost it).
Proof.
  intros H.
  destruct (for_loop max_iterations 0 (initial theta0 w)) as [st0 [e|e]] eqn:Hl.
  2: { unfold pipeline, optimize in H. rewrite Hl in H. discriminate. }
  destruct (for_loop_returns _ _ _ Hl)
    as [(_ & -> & _) | (its & it & Hch & Hall & Hlt & -> & He)].
  - unfold pipeline, optimize in H. rewrite Hl in H. simpl in H. discriminate.
  - rewrite (@pipeline_after theta0 max_iterations w its it e Hl) in H.
    destruct (formats_as_float (theta_after it)); [|discriminate].
    inversion H; subst.
    destruct (ns_after_last its it 0 (initial theta0 w)) as [Hns Hw].
    exists (flat_map events_of its), it.
    apply chained_app in Hch. destruct Hch as [_ (_ & _ & Hperf & _)].
    rewrite calls_after, flat_map_app, Hns, Hw. simpl.
    repeat split; auto; apply Hperf.
Qed.

(** C10.  With [max_iterations >= 1] and collaborators whose calls all
    return, the loop body runs at least once: the loop ends after one or
    more completed passes from the initial parameters, and [energy] and
    [theta] are then bound to what the last of them evaluated and stepped
    to, the cost function's value at these very parameters.  The cells
    after the loop read them without a [NameError], and the output is
    that cost (only a [theta] the second [print] cannot format makes that
    [print] raise).  With [max_iterations = 0] no pass runs and the first
    [print] raises a [NameError] for [energy]. *)
Theorem names_read_after_loop_are_bound
  (theta0 : Param) (w : World) :
  (forall max_iterations,
      1 <= max_iterations ->
      always_return ->
      exists its it e,
        chained theta0 w (its ++ [it])
        /\ for_loop max_iterations 0 (initial theta0 w)
           = (reached theta0 w (its ++ [it]), Ok e)
        /\ 1 <= steps_completed (calls (reached theta0 w (its ++ [it])))
        /\ theta (ns (reached theta0 w (its ++ [it]))) = theta_after it
        /\ energy (ns (reached theta0 w (its ++ [it])))
           = Some (currentCost it)
        /\ cost_fn (theta (ns (reached theta0 w (its ++ [it]))))
                   (world_stepped it)
           = (backend (reached theta0 w (its ++ [it])), Ok (currentCost it))
        /\ optimize theta0 max_iterations w
           = (reached theta0 w (its ++ [it]),
              reported it (S (List.length its)) (left_by_break e))
        /\ pipeline theta0 max_iterations w
           = (reached theta0 w (its ++ [it]),
              if formats_as_float (theta_after it) then Ok (currentCost it)
              else Raise (TypeError "theta")))
  /\ optimize theta0 0 w = (initial theta0 w, Raise (NameError "energy"))
  /\ pipeline theta0 0 w = (initial theta0 w, Raise (NameError "energy")).
Proof.
  split; [|split; reflexivity].
  intros max_iterations Hpos Hret. unfold reached.
  destruct (for_loop_total Hret max_iterations 0 (initial theta0 w))
    as (st & e & Hl).
  destruct (for_loop_returns _ _ _ Hl)
    as [(-> & _) | (its & it & Hch & Hall & Hlt & -> & He)]; [lia|].
  destruct (ns_after_last its it 0 (initial theta0 w)) as [Hns Hw].
  exists its, it, e.
  split; [exact Hch|]. split; [exact Hl|].
  rewrite calls_after. simpl. rewrite steps_completed_passes.
  rewrite length_app, Hns, Hw. simpl.
  split; [lia|]. split; [reflexivity|]. split; [reflexivity|].
  split.
  { apply chained_app in Hch. destruct Hch as [_ (_ & _ & Hperf & _)].
    apply Hperf. }
  split.
  - exact (@optimize_after theta0 max_iterations w its it e Hl).
  - exact (@pipeline_after theta0 max_iterations w its it e Hl).
Qed.

(** *** Further properties of the loop *)

(** [x =? x] holds of every number. *)
Lemma SFeqb_refl (a : spec_float) : a <> S754_nan -> SFeqb a a = true.
Proof.
  destruct a as [s|s| |s m e]; intros H; try reflexivity; try congruence.
  - destruct s; reflexivity.
  - unfold SFeqb. simpl. rewrite Z.compare_refl.
    rewrite Pos.compare_cont_refl. destruct s; reflexivity.
Qed.

Lemma is_nan_Prim2SF (f : float) :
  PrimFloat.is_nan f = true <-> Prim2SF f = S754_nan.
Proof.
  unfold PrimFloat.is_nan. rewrite eqb_spec. split.
  - intros H. destruct (Prim2SF f) as [s|s| |s m e] eqn:E; try reflexivity;
      rewrite SFeqb_refl in H by discriminate; discriminate.
  - intros ->. reflexivity.
Qed.

(** The stopping test holds only of two numbers and a tolerance that is
    at least zero. *)
Lemma stopping_test_needs_numbers (e p tol : float) :
  PrimFloat.leb (PrimFloat.abs (PrimFloat.sub e p)) tol = true ->
  PrimFloat.is_nan e = false /\ PrimFloat.is_nan p = false
  /\ PrimFloat.leb PrimFloat.zero tol = true.
Proof.
  rewrite !leb_spec, abs_spec, sub_spec. intros H.
  assert (He : Prim2SF e <> S754_nan).
  { intros E. rewrite E in H. discriminate. }
  assert (Hp : Prim2SF p <> S754_nan).
  { intros E. rewrite E in H. destruct (Prim2SF e); discriminate. }
  repeat split.
  - destruct (PrimFloat.is_nan e) eqn:X; [|reflexivity].
    apply is_nan_Prim2SF in X. contradiction.
  - destruct (PrimFloat.is_nan p) eqn:X; [|reflexivity].
    apply is_nan_Prim2SF in X. contradiction.
  - change (Prim2SF PrimFloat.zero) with (S754_zero false).
    destruct (SF64sub (Prim2SF e) (Prim2SF p)) as [s|s| |s m x];
      destruct (Prim2SF tol) as [s'|s'| |s' m' x'];
      try destruct s'; simpl in *; try discriminate; try reflexivity.
Qed.

Lemma counts_of_passes (its : list iteration) :
  List.length (flat_map events_of its) = 2 * List.length its
  /\ steps_attempted (flat_map events_of its) = List.length its
  /\ cost_evaluations (flat_map events_of its) = List.length its.
Proof.
  unfold steps_attempted, cost_evaluations.
  induction its as [|it its (IH1 & IH2 & IH3)]; simpl; [auto|].
  rewrite IH1, IH2, IH3. repeat split; lia.
Qed.

Lemma replayed_app (l1 l2 : list event) :
  forall w w1 w2,
    replayed l1 w w1 -> replayed l2 w1 w2 -> replayed (l1 ++ l2) w w2.
Proof.
  induction l1 as [|ev l1 IH]; intros w w1 w2 H1 H2; simpl in *.
  - subst. assumption.
  - destruct H1 as (w0 & Hev & H1). exists w0. split; [assumption|].
    eapply IH; eassumption.
Qed.

Lemma replayed_passes (its : list iteration) :
  forall i st,
    chained (theta (ns st)) (backend st) its ->
    replayed (flat_map events_of its) (backend st) (backend (after i st its)).
Proof.
  induction its as [|it its IH]; intros i st Hch; simpl.
  - reflexivity.
  - destruct Hch as (Hth & Hw & (Hs & Hc) & Hch).
    exists (world_stepped it). split; [rewrite <- Hw; exact Hs|].
    exists (world_after it). split; [exact Hc|].
    apply (IH (S i)
              (State (bound i it) (world_after it) (calls st ++ events_of it))).
    exact Hch.
Qed.

Lemma chained_snoc (its : list iteration) (it : iteration) :
  forall i st,
    chained (theta (ns st)) (backend st) its ->
    chained (theta (ns (after i st its))) (backend (after i st its)) [it] ->
    chained (theta (ns st)) (backend st) (its ++ [it]).
Proof.
  induction its as [|a l IH]; intros i st Hch Hit; simpl in *.
  - exact Hit.
  - destruct Hch as (H1 & H2 & H3 & H4).
    split; [exact H1|]. split; [exact H2|]. split; [exact H3|].
    apply (IH (S i)
              (State (bound i a) (world_after a) (calls st ++ events_of a)));
      assumption.
Qed.

(** Every run, whatever its outcome: the passes that completed, then the
    calls of the pass that ended it. *)
Lemma for_loop_calls (n i : nat) (st st' : state)
  (r : result (exn Failure) exit) :
  for_loop n i st = (st', r) ->
  exists its unfinished,
    chained (theta (ns st)) (backend st) its
    /\ List.length its <= n
    /\ calls st' = calls st ++ flat_map events_of its ++ unfinished
    /\ replayed (flat_map events_of its ++ unfinished) (backend st)
                (backend st')
    /\ match r with
       | Ok _ => unfinished = []
       | Raise _ =>
           List.length its < n
           /\ ((exists th f, unfinished = [StepAndCost th (Raise f)])
               \/ (exists th th' p f,
                      unfinished = [StepAndCost th' (Ok (th, p));
                                    CostFn th (Raise f)]))
       end.
Proof.
  intros H. destruct (for_loop_sound _ _ _ H) as (its & Hch & Hall & Hrun).
  pose proof (replayed_passes its i st Hch) as Hrep.
  inversion Hrun as [Hlen Hst He | st0 r0 Hlt Hend Hst Hr]; subst.
  - exists its, []. rewrite calls_after, !app_nil_r.
    repeat split; auto.
  - inversion Hend as [it Hit Hstop Hst He
                      | w1 f Hs Hst He
                      | w1 th p w2 f Hs Hc Hst He]; subst.
    + exists (its ++ [it]), []. rewrite <- after_app.
      rewrite calls_after, !app_nil_r.
      pose proof (@chained_snoc its it i st Hch Hit) as Hch'.
      repeat split; auto.
      * rewrite length_app. simpl. lia.
      * apply replayed_passes. exact Hch'.
    + exists its,
        [StepAndCost (theta (ns (after i st its))) (Raise f)].
      simpl. rewrite calls_after, <- app_assoc.
      repeat split; auto; try lia.
      * eapply replayed_app; [exact Hrep|].
        simpl. exists w1. split; [exact Hs|reflexivity].
      * left. eauto.
    + exists its,
        [StepAndCost (theta (ns (after i st its))) (Ok (th, p));
         CostFn th (Raise f)].
      simpl. rewrite calls_after, <- app_assoc.
      repeat split; auto; try lia.
      * eapply replayed_app; [exact Hrep|].
        simpl. exists w1. split; [exact Hs|].
        exists w2. split; [exact Hc|reflexivity].
      * right. eauto.
Qed.

Lemma counts_app (l l' : list event) :
  steps_attempted (l ++ l') = steps_attempted l + steps_attempted l'
  /\ cost_evaluations (l ++ l') = cost_evaluations l + cost_evaluations l'
  /\ steps_completed (l ++ l') = steps_completed l + steps_completed l'.
Proof.
  unfold steps_attempted, cost_evaluations, steps_completed.
  rewrite !filter_app, !length_app. auto.
Qed.

(** X1.  Whatever the outcome, a run of the loop cell makes at most
    [2 * max_iterations] calls: at most [max_iterations] optimizer steps,
    and one evaluation of the cost function for each step that returned,
    but for a last step when that evaluation is the call that raises or
    never happens.  A run that returns made exactly two calls for each
    pass it counts. *)
Theorem loop_call_budget
  (theta0 : Param) (max_iterations : nat) (w : World) (st : state)
  (r : result (exn Failure) OptimizationResult) :
  optimize theta0 max_iterations w = (st, r) ->
  List.length (calls st) <= 2 * max_iterations
  /\ steps_attempted (calls st) <= max_iterations
  /\ cost_evaluations (calls st) <= steps_attempted (calls st)
  /\ steps_attempted (calls st) <= S (cost_evaluations (calls st))
  /\ forall res,
       r = Ok res ->
       List.length (calls st) = 2 * iterationsRun res
       /\ steps_attempted (calls st) = iterationsRun res
       /\ cost_evaluations (calls st) = iterationsRun res.
Proof.
  intros H.
  assert (Hany : List.length (calls st) <= 2 * max_iterations
                 /\ steps_attempted (calls st) <= max_iterations
                 /\ cost_evaluations (calls st) <= steps_attempted (calls st)
                 /\ steps_attempted (calls st)
                    <= S (cost_evaluations (calls st))).
  { destruct (optimize_state _ _ _ H) as (r0 & Hl & _).
    destruct (for_loop_calls _ _ _ Hl)
      as (its & unfinished & _ & Hlen & Hcalls & _ & Hend).
    simpl in Hcalls. rewrite Hcalls.
    destruct (counts_app (flat_map events_of its) unfinished)
      as (E1 & E2 & _).
    rewrite E1, E2, length_app.
    destruct (counts_of_passes its) as (E3 & E4 & E5).
    rewrite E3, E4, E5.
    destruct r0 as [x|e].
    - subst unfinished. unfold steps_attempted, cost_evaluations. simpl. lia.
    - destruct Hend as [Hlt [(th & f & ->) | (th & th' & p & f & ->)]];
        unfold steps_attempted, cost_evaluations; simpl; lia. }
  destruct Hany as (H1 & H2 & H3 & H4).
  repeat (split; [assumption|]).
  intros res ->.
  destruct (optimize_returns _ _ _ H)
    as (its & it & _ & _ & _ & -> & -> & _).
  rewrite calls_after. simpl.
  destruct (counts_of_passes (its ++ [it])) as (E3 & E4 & E5).
  rewrite E3, E4, E5, length_app. simpl. repeat split; lia.
Qed.

Lemma for_loop_add (n m : nat) :
  forall i st,
    for_loop (n + m) i st
    = match for_loop n i st with
      | (st', Ok Exhausted) => for_loop m (i + n) st'
      | ended => ended
      end.
Proof.
  induction n as [|n IH]; intros i st; simpl.
  - rewrite Nat.add_0_r. reflexivity.
  - destruct (step_and_cost cost_fn (theta (ns st)) (backend st))
      as [w1 [[th p]|f]]; [|reflexivity].
    simpl. destruct (cost_fn th w1) as [w2 [c|f]]; [|reflexivity].
    destruct (within_tolerance c p); [reflexivity|].
    rewrite IH, Nat.add_succ_r. reflexivity.
Qed.

(** X2.  A budget of [n + m] passes is a budget of [n] passes
    followed, when these are exhausted, by [m] more passes from where they
    stopped; a loop that breaks or raises within [n] passes does the same
    with any larger budget. *)
Theorem for_loop_budget_splits (n m i : nat) (st : state) :
  for_loop (n + m) i st
  = match for_loop n i st with
    | (st', Ok Exhausted) => for_loop m (i + n) st'
    | ended => ended
    end.
Proof.
  revert i st. induction n as [|n IH]; intros i st; simpl.
  - rewrite Nat.add_0_r. reflexivity.
  - destruct (step_and_cost cost_fn (theta (ns st)) (backend st))
      as [w1 [[th p]|f]]; [|reflexivity].
    simpl. destruct (cost_fn th w1) as [w2 [c|f]]; [|reflexivity].
    destruct (within_tolerance c p); [reflexivity|].
    rewrite IH, Nat.add_succ_r. reflexivity.
Qed.

(** X3.  A run of the loop cell that converged, or that a collaborator's
    failure ended, is the same run under every larger [max_iterations]:
    same calls, same final names, same result. *)
Theorem settled_run_ignores_larger_budget
  (theta0 : Param) (max_iterations more : nat) (w : World) (st : state)
  (r : result (exn Failure) OptimizationResult) :
  optimize theta0 max_iterations w = (st, r) ->
  (exists res, r = Ok res /\ converged res = true)
  \/ (exists f, r = Raise (Collaborator f)) ->
  optimize theta0 (max_iterations + more) w = (st, r).
Proof.
  intros H Hsettled.
  destruct (optimize_state _ _ _ H) as (r0 & Hl & Hr).
  assert (Hsame : for_loop (max_iterations + more) 0 (initial theta0 w)
                  = (st, r0)).
  { rewrite for_loop_add, Hl.
    destruct r0 as [[|]|e]; try reflexivity.
    exfalso.
    destruct (energy (ns st));
      [destruct (formats_as_float (theta (ns st)))|]; subst r;
      destruct Hsettled as [(res & Hres & Hc) | (fl & Hf)];
      try discriminate.
    inversion Hres; subst. discriminate. }
  unfold optimize in *. rewrite Hl in H. rewrite Hsame. exact H.
Qed.

(** X4.  The loop reads [theta] and the backend only: what [energy],
    [prev_energy] and [_] held before the cell runs (left by an earlier
    run in the same kernel, say) changes neither the calls made, nor the
    outcome, nor, once a pass has completed, any of the four names. *)
Theorem for_loop_ignores_stale_bindings (n : nat) :
  forall i st1 st2 st1' st2' r1 r2,
    theta (ns st1) = theta (ns st2) ->
    backend st1 = backend st2 ->
    for_loop n i st1 = (st1', r1) ->
    for_loop n i st2 = (st2', r2) ->
    r1 = r2
    /\ backend st1' = backend st2'
    /\ theta (ns st1') = theta (ns st2')
    /\ (exists new,
           calls st1' = calls st1 ++ new /\ calls st2' = calls st2 ++ new)
    /\ (ns st1 = ns st2 \/ 1 <= n ->
        forall e, r1 = Ok e -> ns st1' = ns st2').
Proof.
  induction n as [|n IH]; intros i st1 st2 st1' st2' r1 r2 Hth Hw H1 H2;
    simpl in H1, H2.
  - inversion H1; inversion H2; subst.
    repeat split; auto.
    + exists []. rewrite !app_nil_r. auto.
    + intros [Hns | Hpos] e _; [assumption|lia].
  - rewrite Hth, Hw in H1.
    destruct (step_and_cost cost_fn (theta (ns st2)) (backend st2))
      as [w1 [[th p]|f]]; simpl in H1, H2.
    + destruct (cost_fn th w1) as [w2 [c|f]].
      * rewrite <- app_assoc in H1, H2. simpl in H1, H2.
        destruct (within_tolerance c p).
        -- inversion H1; inversion H2; subst. simpl.
           repeat split; auto. eexists; split; reflexivity.
        -- pose proof (fun A B => IH _ _ _ _ _ _ _ A B H1 H2) as G.
           destruct (G eq_refl eq_refl)
             as (Hr & Hb & Ht & (new & Hc1 & Hc2) & Hns).
           simpl in Hc1, Hc2. rewrite <- app_assoc in Hc1, Hc2.
           repeat split; auto.
           ++ eexists; split; eassumption.
           ++ intros _ e He. apply (Hns (or_introl eq_refl) e He).
      * inversion H1; inversion H2; subst. simpl.
        rewrite <- !app_assoc. simpl.
        repeat split; auto; try discriminate.
        eexists; split; reflexivity.
    + inversion H1; inversion H2; subst. simpl.
      repeat split; auto; try discriminate.
      eexists; split; reflexivity.
Qed.

(** X5.  When a collaborator's failure ends the run of the loop cell, the
    names are left half-way: [_] holds the number of passes that
    completed, [energy] is still what the last of them bound (unbound if
    none did), and either the optimizer's step raised and [theta] and
    [prev_energy] are untouched by this pass, or the step returned, its
    parameters and cost are already bound to [theta] and [prev_energy],
    and it is the evaluation at these new parameters that raised. *)
Theorem names_after_a_failure
  (theta0 : Param) (max_iterations : nat) (w : World) (st : state)
  (f : Failure) :
  optimize theta0 max_iterations w = (st, Raise (Collaborator f)) ->
  exists its,
    let before := after 0 (initial theta0 w) its in
    chained theta0 w its
    /\ Forall (fun it => stops it = false) its
    /\ List.length its < max_iterations
    /\ loop_index (ns st) = Some (List.length its)
    /\ energy (ns st) = energy (ns before)
    /\ ((theta (ns st) = theta (ns before)
         /\ prev_energy (ns st) = prev_energy (ns before)
         /\ step_and_cost cost_fn (theta (ns before)) (backend before)
            = (backend st, Raise f))
        \/ (exists w1 p,
               step_and_cost cost_fn (theta (ns before)) (backend before)
               = (w1, Ok (theta (ns st), p))
               /\ prev_energy (ns st) = Some p
               /\ cost_fn (theta (ns st)) w1 = (backend st, Raise f))).
Proof.
  intros H. destruct (optimize_state _ _ _ H) as (r0 & Hl & Hr).
  destruct r0 as [x|e].
  { destruct (energy (ns st));
      [destruct (formats_as_float (theta (ns st)))|]; discriminate. }
  inversion Hr; subst e. clear Hr.
  destruct (for_loop_sound _ _ _ Hl) as (its & Hch & Hall & Hrun).
  simpl in Hch. exists its. simpl.
  inversion Hrun as [Hlen Hst He | st0 r0 Hlt Hend Hst Hr]; subst.
  inversion Hend as [it Hit Hstop Hst He
                    | w1 f' Hs Hst He
                    | w1 th p w2 f' Hs Hc Hst He]; subst; simpl.
  - repeat split; auto.
  - repeat split; auto. right. exists w1, p. auto.
Qed.

(** X6.  The cells after the loop raise a [NameError] only when
    [max_iterations = 0]: it is then for [energy], raised by the first
    [print], with no call made and the names as they were. *)
Theorem name_error_only_without_passes
  (theta0 : Param) (max_iterations : nat) (w : World) (st : state)
  (name : string) :
  pipeline theta0 max_iterations w = (st, Raise (NameError name)) ->
  max_iterations = 0
  /\ name = "energy"%string
  /\ st = initial theta0 w
  /\ optimize theta0 max_iterations w = (st, Raise (NameError name)).
Proof.
  unfold pipeline. intros H.
  destruct (optimize theta0 max_iterations w) as [st0 [res|e]] eqn:Ho.
  - destruct (optimize_returns _ _ _ Ho)
      as (its & it & _ & _ & _ & -> & _ & _).
    destruct (ns_after_last its it 0 (initial theta0 w)) as [Hns _].
    rewrite Hns in H. simpl in H. discriminate.
  - inversion H; subst. clear H.
    destruct (optimize_state _ _ _ Ho) as (r0 & Hl & Hr).
    destruct r0 as [x|e]; [|inversion Hr; subst].
    + destruct (for_loop_returns _ _ _ Hl)
        as [(-> & -> & _) | (its & it & _ & _ & _ & -> & _)].
      * simpl in Hr. inversion Hr. auto.
      * destruct (ns_after_last its it 0 (initial theta0 w)) as [Hns _].
        rewrite Hns in Hr. simpl in Hr.
        destruct (formats_as_float (theta_after it)); discriminate.
    + destruct (for_loop_sound _ _ _ Hl) as (its & _ & _ & Hrun).
      inversion Hrun as [| st1 r1 Hlt Hend]; subst.
      inversion Hend.
Qed.

(** X7.  A run reported as converged ended on two costs that are
    numbers, within a tolerance that is at least zero: the final cost is
    never NaN. *)
Theorem converged_cost_is_a_number
  (theta0 : Param) (max_iterations : nat) (w : World) (st : state)
  (res : OptimizationResult) :
  optimize theta0 max_iterations w = (st, Ok res) ->
  converged res = true ->
  PrimFloat.is_nan (finalCost res) = false
  /\ PrimFloat.leb PrimFloat.zero convergence_tolerance = true
  /\ exists p,
       prev_energy (ns st) = Some p
       /\ PrimFloat.is_nan p = false
       /\ PrimFloat.leb (PrimFloat.abs (PrimFloat.sub (finalCost res) p))
                        convergence_tolerance = true.
Proof.
  intros H Hc.
  destruct (optimize_returns _ _ _ H)
    as (its & it & _ & _ & _ & -> & -> & _).
  simpl in *.
  unfold stops, within_tolerance in Hc.
  destruct (stopping_test_needs_numbers Hc) as (He & Hp & Htol).
  destruct (ns_after_last its it 0 (initial theta0 w)) as [Hns _].
  rewrite Hns. simpl. repeat split; auto.
  exists (previousCost it). auto.
Qed.

(** X8.  A run that returns without having converged spent the whole
    budget: it made [max_iterations] optimizer steps, and the test failed
    at the last of them too. *)
Theorem not_converged_means_budget_spent
  (theta0 : Param) (max_iterations : nat) (w : World) (st : state)
  (res : OptimizationResult) :
  optimize theta0 max_iterations w = (st, Ok res) ->
  converged res = false ->
  iterationsRun res = max_iterations
  /\ steps_completed (calls st) = max_iterations
  /\ exists p,
       prev_energy (ns st) = Some p
       /\ PrimFloat.leb (PrimFloat.abs (PrimFloat.sub (finalCost res) p))
                        convergence_tolerance = false.
Proof.
  intros H Hc.
  destruct (optimize_returns _ _ _ H)
    as (its & it & _ & _ & _ & -> & -> & Hn).
  simpl in *. specialize (Hn Hc).
  destruct (ns_after_last its it 0 (initial theta0 w)) as [Hns _].
  rewrite calls_after, Hns. simpl. rewrite steps_completed_passes.
  rewrite length_app. simpl.
  repeat split; try lia.
  exists (previousCost it). auto.
Qed.

(** X9.  With a tolerance that is negative or NaN the test never holds:
    a run that returns has not converged and made all [max_iterations]
    steps. *)
Theorem unusable_tolerance_never_converges
  (theta0 : Param) (max_iterations : nat) (w : World) (st : state)
  (res : OptimizationResult) :
  PrimFloat.leb PrimFloat.zero convergence_tolerance = false ->
  optimize theta0 max_iterations w = (st, Ok res) ->
  converged res = false /\ iterationsRun res = max_iterations.
Proof.
  intros Htol H.
  destruct (optimize_returns _ _ _ H)
    as (its & it & _ & _ & _ & -> & -> & Hn).
  simpl in *.
  assert (Hs : stops it = false).
  { destruct (stops it) eqn:E; [|reflexivity].
    unfold stops, within_tolerance in E.
    destruct (stopping_test_needs_numbers E) as (_ & _ & Hz).
    congruence. }
  split; [exact Hs|apply Hn; exact Hs].
Qed.

(** X10.  The calls of a run account for the backend: made one after the
    other from the backend the run started on, each on the backend the
    one before left, they return or raise what the run saw and leave the
    backend the run ends on.  No collaborator is called outside them. *)
Theorem calls_account_for_backend
  (theta0 : Param) (max_iterations : nat) (w : World) (st : state)
  (r : result (exn Failure) OptimizationResult) :
  optimize theta0 max_iterations w = (st, r) ->
  replayed (calls st) w (backend st).
Proof.
  intros H. destruct (optimize_state _ _ _ H) as (r0 & Hl & _).
  destruct (for_loop_calls _ _ _ Hl)
    as (its & unfinished & _ & _ & Hcalls & Hrep & _).
  simpl in Hcalls, Hrep. rewrite Hcalls. exact Hrep.
Qed.

Lemma for_loop_index_shift (n : nat) :
  forall i j sa sb sa' sb' ra rb,
    same_but_index sa sb ->
    for_loop n i sa = (sa', ra) ->
    for_loop n j sb = (sb', rb) ->
    ra = rb
    /\ same_but_index sa' sb'
    /\ (1 <= n ->
        exists k, loop_index (ns sa') = Some (i + k)
                  /\ loop_index (ns sb') = Some (j + k)).
Proof.
  induction n as [|n IH];
    intros i j sa sb sa' sb' ra rb (Hth & Hp & He & Hw & Hc) Ha Hb;
    simpl in Ha, Hb.
  - inversion Ha; inversion Hb; subst.
    split; [reflexivity|]. split; [repeat split; assumption|]. lia.
  - rewrite Hth, Hw, Hc in Ha.
    destruct (step_and_cost cost_fn (theta (ns sb)) (backend sb))
      as [w1 [[th p]|f]]; simpl in Ha, Hb.
    + destruct (cost_fn th w1) as [w2 [c|f]].
      * destruct (within_tolerance c p).
        -- inversion Ha; inversion Hb; subst. simpl.
           split; [reflexivity|]. split; [repeat split|].
           intros _. exists 0. rewrite !Nat.add_0_r. auto.
        -- pose proof (fun Hsb => IH (S i) (S j) _ _ _ _ _ _ Hsb Ha Hb) as G.
           destruct G as (Hr & Hsame & Hidx); [repeat split|].
           split; [exact Hr|]. split; [exact Hsame|].
           intros _. destruct n as [|n'].
           ++ simpl in Ha, Hb. inversion Ha; inversion Hb; subst. simpl.
              exists 0. rewrite !Nat.add_0_r. auto.
           ++ destruct Hidx as (k & Hka & Hkb); [lia|].
              exists (S k). rewrite !Nat.add_succ_r. auto.
      * inversion Ha; inversion Hb; subst. simpl.
        rewrite He.
        split; [reflexivity|]. split; [repeat split|].
        intros _. exists 0. rewrite !Nat.add_0_r. auto.
    + inversion Ha; inversion Hb; subst. simpl.
      split; [reflexivity|]. split; [repeat split; assumption|].
      intros _. exists 0. rewrite !Nat.add_0_r. auto.
Qed.

(** X11.  Running the loop cell again after its budget was exhausted
    resumes the optimization: a run of [n] passes, exhausted, followed by
    a second run of the cell with [m] passes makes the calls, leaves the
    backend, [theta], [prev_energy] and [energy] and has the outcome of
    one run with [n + m] passes; only the loop variable [_] differs,
    counting from zero again in the second run. *)
Theorem rerunning_the_cell_resumes
  (n m : nat) (st st1 st2 st3 : state) (r r3 : result (exn Failure) exit) :
  for_loop n 0 st = (st1, Ok Exhausted) ->
  for_loop m 0 st1 = (st2, r) ->
  for_loop (n + m) 0 st = (st3, r3) ->
  r3 = r
  /\ same_but_index st3 st2
  /\ (1 <= m ->
      exists k, loop_index (ns st2) = Some k
                /\ loop_index (ns st3) = Some (n + k)).
Proof.
  intros H1 H2 H3. rewrite for_loop_add, H1 in H3. simpl in H3.
  assert (Hsame : same_but_index st1 st1) by (repeat split).
  destruct (for_loop_index_shift m n 0 Hsame H3 H2) as (Hr & Hs & Hidx).
  split; [exact Hr|]. split; [exact Hs|].
  intros Hm. destruct (Hidx Hm) as (k & Hk3 & Hk2).
  exists k. simpl in Hk2. auto.
Qed.

Lemma for_loop_keeps_latest (n : nat) :
  forall i st st' r,
    for_loop n i st = (st', r) ->
    exists new,
      calls st' = calls st ++ new
      /\ theta (ns st') = latest_parameters (theta (ns st)) new
      /\ prev_energy (ns st') = latest_step_cost (prev_energy (ns st)) new
      /\ energy (ns st') = latest_energy (energy (ns st)) new.
Proof.
  induction n as [|n IH]; intros i st st' r H; simpl in H.
  - inversion H; subst. exists []. rewrite app_nil_r. auto.
  - destruct (step_and_cost cost_fn (theta (ns st)) (backend st))
      as [w1 [[th p]|f]]; simpl in H.
    + destruct (cost_fn th w1) as [w2 [c|f]].
      * rewrite <- app_assoc in H. simpl in H.
        destruct (within_tolerance c p).
        -- inversion H; subst. simpl. eexists. split; [reflexivity|].
           simpl. auto.
        -- apply IH in H. destruct H as (new & Hc & Ht & Hp & He).
           simpl in *. rewrite <- app_assoc in Hc.
           eexists. split; [exact Hc|]. simpl. auto.
      * inversion H; subst. simpl. rewrite <- app_assoc.
        eexists. split; [reflexivity|]. simpl. auto.
    + inversion H; subst. simpl.
      eexists. split; [reflexivity|]. simpl. auto.
Qed.

(** X12.  After any run of the loop cell, returned or raised, the names
    hold the latest values the collaborators returned: [theta] the
    parameters of the last optimizer step that returned (the initial ones
    when none did), [prev_energy] the cost that step returned, and
    [energy] the last cost the loop's own evaluation returned; the last
    two are unbound when there is no such call. *)
Theorem names_hold_latest_returns
  (theta0 : Param) (max_iterations : nat) (w : World) (st : state)
  (r : result (exn Failure) OptimizationResult) :
  optimize theta0 max_iterations w = (st, r) ->
  theta (ns st) = latest_parameters theta0 (calls st)
  /\ prev_energy (ns st) = latest_step_cost None (calls st)
  /\ energy (ns st) = latest_energy None (calls st).
Proof.
  intros H. destruct (optimize_state _ _ _ H) as (r0 & Hl & _).
  destruct (for_loop_keeps_latest _ _ _ Hl) as (new & Hc & Ht & Hp & He).
  simpl in *. rewrite Hc. auto.
Qed.

End Loop.

(** *** The properties on the quadratic bowl

    Gradient descent with step size [0.25] from [theta = 1] halves
    [theta] at every step: the costs are 1, 0.25, 0.0625, ... *)

Local Open Scope float_scope.

Local Abbreviation bowl := (Bowl.cost_fn None).
Local Abbreviation descent := (Bowl.step_and_cost 0.25).
Local Abbreviation scalar := (fun _ : float => true).
Local Abbreviation two_passes :=
  (State (Namespace 0.25 (Some 0.25) (Some 0.0625) (Some 1%nat)) 4%nat
         [StepAndCost 1 (Ok (0.5, 1)); CostFn 0.5 (Ok 0.25);
          StepAndCost 0.5 (Ok (0.25, 0.25));
          CostFn (Failure := Bowl.Failure) 0.25 (Ok 0.0625)]).
Local Abbreviation first_pass := (Iteration 1 0%nat 1%nat 0.5 1 2%nat 0.25).
Local Abbreviation second_pass := (Iteration 0.5 2%nat 3%nat 0.25 0.25 4%nat 0.0625).

Local Abbreviation device_lost :=
  (State (Namespace 0.25 (Some 0.25) (Some 0.25) (Some 1%nat)) 3%nat
         [StepAndCost 1 (Ok (0.5, 1)); CostFn 0.5 (Ok 0.25);
          StepAndCost 0.5 (Ok (0.25, 0.25));
          CostFn 0.25 (Raise Bowl.DeviceUnavailable)]).

Lemma bowl_always_returns : always_return bowl descent.
Proof.
  split.
  - intros th w. exists (S w), (th * th). reflexivity.
  - intros th w. exists (S w), (th - 0.25 * (2 * th)), (th * th). reflexivity.
Defined.

Lemma convergence_compares_cost_witness :
  for_loop (Bowl.cost_fn (Some 3%nat)) descent 0 3 0
           (initial Bowl.Failure 1 0%nat)
  = (device_lost, Raise (Collaborator Bowl.DeviceUnavailable))
  /\ exists its,
       chained (Bowl.cost_fn (Some 3%nat)) descent 1 0%nat its
       /\ (List.length its <= 3)%nat
       /\ calls (reached Bowl.Failure 1 0%nat its)
          = flat_map (events_of Bowl.Failure) its
       /\ (exists f,
              Collaborator Bowl.DeviceUnavailable = Collaborator f
              /\ loop_index (ns device_lost) = Some (List.length its)
              /\ ((descent (Bowl.cost_fn (Some 3%nat))
                           (theta (ns (reached Bowl.Failure 1 0%nat its)))
                           (backend (reached Bowl.Failure 1 0%nat its))
                   = (backend device_lost, Raise f)
                   /\ calls device_lost
                      = flat_map (events_of Bowl.Failure) its
                        ++ [StepAndCost
                              (theta (ns (reached Bowl.Failure 1 0%nat its)))
                              (Raise f)])
                  \/ (exists w1 th p,
                         descent (Bowl.cost_fn (Some 3%nat))
                                 (theta (ns (reached Bowl.Failure 1 0%nat its)))
                                 (backend (reached Bowl.Failure 1 0%nat its))
                         = (w1, Ok (th, p))
                         /\ Bowl.cost_fn (Some 3%nat) th w1
                            = (backend device_lost, Raise f)
                         /\ calls device_lost
                            = flat_map (events_of Bowl.Failure) its
                              ++ [StepAndCost
                                    (theta
                                       (ns (reached Bowl.Failure 1 0%nat its)))
                                    (Ok (th, p));
                                  CostFn th (Raise f)])))
       /\ forall k it,
            nth_error its k = Some it ->
            (PrimFloat.leb
               (PrimFloat.abs (PrimFloat.sub (currentCost it) (previousCost it)))
               0 = true
             <-> S k = List.length its
                 /\ Raise (A := exit)
                          (Collaborator Bowl.DeviceUnavailable)
                    = Ok Break).
Proof.
  split; [vm_compute; reflexivity|].
  apply (@convergence_compares_cost_after_with_cost_before
           nat float Bowl.Failure (Bowl.cost_fn (Some 3%nat)) descent 0 1
           0%nat 3%nat device_lost
           (Raise (Collaborator Bowl.DeviceUnavailable))).
  vm_compute. reflexivity.
Defined.

Lemma iterations_run_witness :
  optimize bowl descent 0.5 scalar 1 2 0%nat
  = (two_passes, Ok {| finalParameters := 0.25; finalCost := 0.0625;
                       iterationsRun := 2; converged := true |})
  /\ (2%nat = steps_completed (calls two_passes)
      /\ (1 <= 2 <= 2)%nat
      /\ loop_index (ns two_passes) = Some (2 - 1)%nat).
Proof.
  split; [vm_compute; reflexivity|].
  apply (@iterations_run_is_completed_steps
           nat float Bowl.Failure bowl descent 0.5 scalar 1 2%nat 0%nat two_passes
           {| finalParameters := 0.25; finalCost := 0.0625;
              iterationsRun := 2; converged := true |}).
  vm_compute. reflexivity.
Defined.

Lemma exhausted_run_witness :
  exists it,
    nth_error [first_pass; second_pass] (2 - 1) = Some it
    /\ for_loop bowl descent 0 2 0 (initial Bowl.Failure 1 0%nat)
       = (reached Bowl.Failure 1 0%nat [first_pass; second_pass], Ok Exhausted)
    /\ steps_completed
         (calls (reached Bowl.Failure 1 0%nat [first_pass; second_pass]))
       = 2%nat
    /\ passes_started
         (ns (reached Bowl.Failure 1 0%nat [first_pass; second_pass]))
       = 2%nat
    /\ theta (ns (reached Bowl.Failure 1 0%nat [first_pass; second_pass]))
       = theta_after it
    /\ energy (ns (reached Bowl.Failure 1 0%nat [first_pass; second_pass]))
       = Some (currentCost it)
    /\ optimize bowl descent 0 scalar 1 2 0%nat
       = (reached Bowl.Failure 1 0%nat [first_pass; second_pass],
          if scalar (theta_after it)
          then Ok {| finalParameters := theta_after it;
                     finalCost := currentCost it;
                     iterationsRun := 2;
                     converged := false |}
          else Raise (TypeError "theta")).
Proof.
  apply (@exhausted_run_returns_not_converged
           nat float Bowl.Failure bowl descent 0 scalar 1 2%nat 0%nat
           [first_pass; second_pass]).
  - lia.
  - vm_compute. repeat split; reflexivity.
  - reflexivity.
  - repeat constructor.
Defined.

Lemma optimize_terminates_witness :
  snd (optimize bowl descent 0.0078125 scalar 1 500 0%nat)
  = Ok {| finalParameters := 0.03125; finalCost := 0.0009765625;
          iterationsRun := 5; converged := true |}
  /\ exists its it,
       chained bowl descent 1 0%nat (its ++ [it])
       /\ Forall (fun it' => stops 0.0078125 it' = false) its
       /\ (S (List.length its) <= 500)%nat
       /\ (stops 0.0078125 it = false -> S (List.length its) = 500%nat)
       /\ for_loop bowl descent 0.0078125 500 0 (initial Bowl.Failure 1 0%nat)
          = (reached Bowl.Failure 1 0%nat (its ++ [it]),
             Ok (if stops 0.0078125 it then Break else Exhausted))
       /\ steps_attempted (calls (reached Bowl.Failure 1 0%nat (its ++ [it])))
          = S (List.length its)
       /\ optimize bowl descent 0.0078125 scalar 1 500 0%nat
          = (reached Bowl.Failure 1 0%nat (its ++ [it]),
             if scalar (theta_after it)
             then Ok {| finalParameters := theta_after it;
                        finalCost := currentCost it;
                        iterationsRun := S (List.length its);
                        converged := stops 0.0078125 it |}
             else Raise (TypeError "theta"))
       /\ forall its' it',
            chained bowl descent 1 0%nat (its' ++ [it']) ->
            Forall (fun it'' => stops 0.0078125 it'' = false) its' ->
            stops 0.0078125 it' = true ->
            (List.length its' < 500)%nat ->
            stops 0.0078125 it = true
            /\ List.length its = List.length its'
            /\ currentCost it = currentCost it'
            /\ theta_after it = theta_after it'.
Proof.
  split; [vm_compute; reflexivity|].
  apply (@optimize_terminates_within_max_iterations
           nat float Bowl.Failure bowl descent 0.0078125 scalar 1 500%nat
           0%nat).
  - lia.
  - exact bowl_always_returns.
Defined.

Lemma failure_propagates_witness :
  exists st,
    for_loop (Bowl.cost_fn (Some 3%nat)) descent 0 3 0
             (initial Bowl.Failure 1 0%nat)
    = (st, Raise (Collaborator Bowl.DeviceUnavailable))
    /\ optimize (Bowl.cost_fn (Some 3%nat)) descent 0 scalar 1 3 0%nat
       = (st, Raise (Collaborator Bowl.DeviceUnavailable))
    /\ pipeline (Bowl.cost_fn (Some 3%nat)) descent 0 scalar 1 3 0%nat
       = (st, Raise (Collaborator Bowl.DeviceUnavailable))
    /\ backend st = 3%nat
    /\ calls st
       = flat_map (events_of Bowl.Failure) [first_pass]
         ++ [StepAndCost 0.5 (Ok (0.25, 0.25));
             CostFn 0.25 (Raise Bowl.DeviceUnavailable)]
    /\ steps_attempted (calls st) = 2%nat
    /\ energy (ns st) = energy (ns (reached Bowl.Failure 1 0%nat [first_pass])).
Proof.
  apply (@failure_propagates_without_retry
           nat float Bowl.Failure (Bowl.cost_fn (Some 3%nat)) descent 0 scalar
           1 3%nat 0%nat 3%nat [first_pass] Bowl.DeviceUnavailable
           [StepAndCost 0.5 (Ok (0.25, 0.25));
            CostFn 0.25 (Raise Bowl.DeviceUnavailable)]).
  - vm_compute. repeat split; reflexivity.
  - repeat constructor.
  - simpl. lia.
  - right. exists 3%nat, 0.25, 0.25. vm_compute. repeat split; reflexivity.
Defined.

Lemma output_is_cost_witness :
  pipeline bowl descent 0.5 scalar 1 2 0%nat = (two_passes, Ok 0.0625)
  /\ exists before it,
       performed bowl descent it
       /\ calls two_passes = before ++ events_of Bowl.Failure it
       /\ theta (ns two_passes) = theta_after it
       /\ backend two_passes = world_after it
       /\ 0.0625 = currentCost it
       /\ energy (ns two_passes) = Some (currentCost it)
       /\ prev_energy (ns two_passes) = Some (previousCost it).
Proof.
  split; [vm_compute; reflexivity|].
  apply (@output_is_cost_at_final_parameters
           nat float Bowl.Failure bowl descent 0.5 scalar 1 2%nat 0%nat).
  vm_compute. reflexivity.
Defined.

Lemma names_read_after_loop_witness :
  (exists its it e,
      chained bowl descent 1 0%nat (its ++ [it])
      /\ for_loop bowl descent 0.5 2 0 (initial Bowl.Failure 1 0%nat)
         = (reached Bowl.Failure 1 0%nat (its ++ [it]), Ok e)
      /\ (1 <= steps_completed
                 (calls (reached Bowl.Failure 1%float 0 (its ++ [it]))))%nat
      /\ theta (ns (reached Bowl.Failure 1 0%nat (its ++ [it])))
         = theta_after it
      /\ energy (ns (reached Bowl.Failure 1 0%nat (its ++ [it])))
         = Some (currentCost it)
      /\ bowl (theta (ns (reached Bowl.Failure 1 0%nat (its ++ [it]))))
              (world_stepped it)
         = (backend (reached Bowl.Failure 1 0%nat (its ++ [it])),
            Ok (currentCost it))
      /\ optimize bowl descent 0.5 scalar 1 2 0%nat
         = (reached Bowl.Failure 1 0%nat (its ++ [it]),
            reported Bowl.Failure scalar it (S (List.length its))
                     (left_by_break e))
      /\ pipeline bowl descent 0.5 scalar 1 2 0%nat
         = (reached Bowl.Failure 1 0%nat (its ++ [it]),
            if scalar (theta_after it) then Ok (currentCost it)
            else Raise (TypeError "theta")))
  /\ optimize bowl descent 0.5 scalar 1 0 0%nat
     = (initial Bowl.Failure 1 0%nat, Raise (NameError "energy")).
Proof.
  destruct (@names_read_after_loop_are_bound
              nat float Bowl.Failure bowl descent 0.5 scalar 1 0%nat)
    as (Hbound & Hunbound & _).
  split; [|exact Hunbound].
  apply (Hbound 2%nat); [lia|exact bowl_always_returns].
Defined.

(** *** The further properties on the quadratic bowl *)

Local Abbreviation converged_in_two :=
  {| finalParameters := 0.25; finalCost := 0.0625;
     iterationsRun := 2; converged := true |}.
Local Abbreviation exhausted_in_two :=
  {| finalParameters := 0.25; finalCost := 0.0625;
     iterationsRun := 2; converged := false |}.
Local Abbreviation lost :=
  (Raise (A := OptimizationResult float) (Collaborator Bowl.DeviceUnavailable)).
Local Abbreviation stale :=
  (State (Namespace 1 (Some 9) (Some 7) (Some 41%nat)) 0%nat
         [CostFn (Failure := Bowl.Failure) 5 (Ok 7)]).

Lemma loop_call_budget_witness :
  optimize (Bowl.cost_fn (Some 3%nat)) descent 0 scalar 1 3 0%nat = (device_lost, lost)
  /\ ((List.length (calls device_lost) <= 2 * 3)%nat
      /\ (steps_attempted (calls device_lost) <= 3)%nat
      /\ (cost_evaluations (calls device_lost)
          <= steps_attempted (calls device_lost))%nat
      /\ (steps_attempted (calls device_lost)
          <= S (cost_evaluations (calls device_lost)))%nat
      /\ forall res,
           lost = Ok res ->
           List.length (calls device_lost) = (2 * iterationsRun res)%nat
           /\ steps_attempted (calls device_lost) = iterationsRun res
           /\ cost_evaluations (calls device_lost) = iterationsRun res).
Proof.
  split; [vm_compute; reflexivity|].
  apply (@loop_call_budget
           nat float Bowl.Failure (Bowl.cost_fn (Some 3%nat)) descent 0 scalar 1
           3%nat 0%nat device_lost lost).
  vm_compute. reflexivity.
Defined.

Lemma settled_run_witness :
  optimize bowl descent 0.5 scalar 1 2 0%nat = (two_passes, Ok converged_in_two)
  /\ optimize bowl descent 0.5 scalar 1 (2 + 498) 0%nat
     = (two_passes, Ok converged_in_two).
Proof.
  split; [vm_compute; reflexivity|].
  apply (@settled_run_ignores_larger_budget
           nat float Bowl.Failure bowl descent 0.5 scalar 1 2%nat 498%nat 0%nat
           two_passes (Ok converged_in_two)).
  - vm_compute. reflexivity.
  - left. exists converged_in_two. split; reflexivity.
Defined.

Lemma stale_bindings_witness :
  for_loop bowl descent 0.5 2 0 (initial Bowl.Failure 1 0%nat)
  = (two_passes, Ok Break)
  /\ for_loop bowl descent 0.5 2 0 stale
     = (State (ns two_passes) 4%nat (calls stale ++ calls two_passes), Ok Break)
  /\ (Ok (E := exn Bowl.Failure) Break = Ok Break
      /\ backend two_passes = 4%nat
      /\ theta (ns two_passes) = theta (ns two_passes)
      /\ (exists new,
             calls two_passes = calls (initial Bowl.Failure 1 0%nat) ++ new
             /\ calls stale ++ calls two_passes = calls stale ++ new)
      /\ (ns (initial Bowl.Failure 1 0%nat) = ns stale \/ (1 <= 2)%nat ->
          forall e, Ok (E := exn Bowl.Failure) Break = Ok e ->
                    ns two_passes = ns two_passes)).
Proof.
  split; [vm_compute; reflexivity|].
  split; [vm_compute; reflexivity|].
  apply (@for_loop_ignores_stale_bindings
           nat float Bowl.Failure bowl descent 0.5 2%nat 0%nat
           (initial Bowl.Failure 1 0%nat) stale
           two_passes
           (State (ns two_passes) 4%nat (calls stale ++ calls two_passes))
           (Ok Break) (Ok Break));
    vm_compute; reflexivity.
Defined.

Lemma names_after_a_failure_witness :
  optimize (Bowl.cost_fn (Some 3%nat)) descent 0 scalar 1 3 0%nat = (device_lost, lost)
  /\ exists its,
       let before := after 0 (initial Bowl.Failure 1 0%nat) its in
       chained (Bowl.cost_fn (Some 3%nat)) descent 1 0%nat its
       /\ Forall (fun it => stops 0 it = false) its
       /\ (List.length its < 3)%nat
       /\ loop_index (ns device_lost) = Some (List.length its)
       /\ energy (ns device_lost) = energy (ns before)
       /\ ((theta (ns device_lost) = theta (ns before)
            /\ prev_energy (ns device_lost) = prev_energy (ns before)
            /\ descent (Bowl.cost_fn (Some 3%nat)) (theta (ns before))
                       (backend before)
               = (backend device_lost, Raise Bowl.DeviceUnavailable))
           \/ (exists w1 p,
                  descent (Bowl.cost_fn (Some 3%nat)) (theta (ns before))
                          (backend before)
                  = (w1, Ok (theta (ns device_lost), p))
                  /\ prev_energy (ns device_lost) = Some p
                  /\ Bowl.cost_fn (Some 3%nat) (theta (ns device_lost)) w1
                     = (backend device_lost, Raise Bowl.DeviceUnavailable))).
Proof.
  split; [vm_compute; reflexivity|].
  apply (@names_after_a_failure
           nat float Bowl.Failure (Bowl.cost_fn (Some 3%nat)) descent 0 scalar 1
           3%nat 0%nat device_lost Bowl.DeviceUnavailable).
  vm_compute. reflexivity.
Defined.

Lemma name_error_witness :
  pipeline bowl descent 0.5 scalar 1 0 0%nat
  = (initial Bowl.Failure 1 0%nat, Raise (NameError "energy"))
  /\ (0%nat = 0%nat
      /\ "energy"%string = "energy"%string
      /\ initial Bowl.Failure 1 0%nat = initial Bowl.Failure 1 0%nat
      /\ optimize bowl descent 0.5 scalar 1 0 0%nat
         = (initial Bowl.Failure 1 0%nat, Raise (NameError "energy"))).
Proof.
  split; [vm_compute; reflexivity|].
  apply (@name_error_only_without_passes
           nat float Bowl.Failure bowl descent 0.5 scalar 1 0%nat 0%nat
           (initial Bowl.Failure 1 0%nat) "energy").
  vm_compute. reflexivity.
Defined.

Lemma converged_cost_witness :
  optimize bowl descent 0.5 scalar 1 2 0%nat = (two_passes, Ok converged_in_two)
  /\ (PrimFloat.is_nan 0.0625 = false
      /\ PrimFloat.leb PrimFloat.zero 0.5 = true
      /\ exists p,
           prev_energy (ns two_passes) = Some p
           /\ PrimFloat.is_nan p = false
           /\ PrimFloat.leb (PrimFloat.abs (PrimFloat.sub 0.0625 p)) 0.5 = true).
Proof.
  split; [vm_compute; reflexivity|].
  apply (@converged_cost_is_a_number
           nat float Bowl.Failure bowl descent 0.5 scalar 1 2%nat 0%nat two_passes
           converged_in_two).
  - vm_compute. reflexivity.
  - reflexivity.
Defined.

Lemma not_converged_witness :
  optimize bowl descent 0 scalar 1 2 0%nat = (two_passes, Ok exhausted_in_two)
  /\ (2%nat = 2%nat
      /\ steps_completed (calls two_passes) = 2%nat
      /\ exists p,
           prev_energy (ns two_passes) = Some p
           /\ PrimFloat.leb (PrimFloat.abs (PrimFloat.sub 0.0625 p)) 0 = false).
Proof.
  split; [vm_compute; reflexivity|].
  apply (@not_converged_means_budget_spent
           nat float Bowl.Failure bowl descent 0 scalar 1 2%nat 0%nat two_passes
           exhausted_in_two).
  - vm_compute. reflexivity.
  - reflexivity.
Defined.

Lemma unusable_tolerance_witness :
  PrimFloat.leb PrimFloat.zero (-1) = false
  /\ optimize bowl descent (-1) scalar 1 2 0%nat = (two_passes, Ok exhausted_in_two)
  /\ (false = false /\ 2%nat = 2%nat).
Proof.
  split; [vm_compute; reflexivity|].
  split; [vm_compute; reflexivity|].
  apply (@unusable_tolerance_never_converges
           nat float Bowl.Failure bowl descent (-1) scalar 1 2%nat 0%nat two_passes
           exhausted_in_two).
  - vm_compute. reflexivity.
  - vm_compute. reflexivity.
Defined.

Lemma calls_account_witness :
  optimize bowl descent 0.5 scalar 1 2 0%nat = (two_passes, Ok converged_in_two)
  /\ replayed bowl descent (calls two_passes) 0%nat 4%nat.
Proof.
  split; [vm_compute; reflexivity|].
  apply (@calls_account_for_backend
           nat float Bowl.Failure bowl descent 0.5 scalar 1 2%nat 0%nat two_passes
           (Ok converged_in_two)).
  vm_compute. reflexivity.
Defined.

Local Abbreviation one_pass :=
  (State (Namespace 0.5 (Some 1) (Some 0.25) (Some 0%nat)) 2%nat
         [StepAndCost 1 (Ok (0.5, 1));
          CostFn (Failure := Bowl.Failure) 0.5 (Ok 0.25)]).
Local Abbreviation one_more_pass :=
  (State (Namespace 0.25 (Some 0.25) (Some 0.0625) (Some 0%nat)) 4%nat
         (calls two_passes)).

Lemma rerunning_the_cell_witness :
  for_loop bowl descent 0 1 0 (initial Bowl.Failure 1 0%nat)
  = (one_pass, Ok Exhausted)
  /\ for_loop bowl descent 0 1 0 one_pass = (one_more_pass, Ok Exhausted)
  /\ for_loop bowl descent 0 (1 + 1) 0 (initial Bowl.Failure 1 0%nat)
     = (two_passes, Ok Exhausted)
  /\ (Ok (E := exn Bowl.Failure) Exhausted = Ok Exhausted
      /\ same_but_index two_passes one_more_pass
      /\ ((1 <= 1)%nat ->
          exists k, loop_index (ns one_more_pass) = Some k
                    /\ loop_index (ns two_passes) = Some (1 + k)%nat)).
Proof.
  split; [vm_compute; reflexivity|].
  split; [vm_compute; reflexivity|].
  split; [vm_compute; reflexivity|].
  apply (@rerunning_the_cell_resumes
           nat float Bowl.Failure bowl descent 0 1%nat 1%nat
           (initial Bowl.Failure 1 0%nat) one_pass one_more_pass two_passes
           (Ok Exhausted) (Ok Exhausted));
    vm_compute; reflexivity.
Defined.

Lemma names_hold_latest_witness :
  optimize (Bowl.cost_fn (Some 3%nat)) descent 0 scalar 1 3 0%nat = (device_lost, lost)
  /\ (theta (ns device_lost) = latest_parameters 1 (calls device_lost)
      /\ prev_energy (ns device_lost)
         = latest_step_cost None (calls device_lost)
      /\ energy (ns device_lost) = latest_energy None (calls device_lost)).
Proof.
  split; [vm_compute; reflexivity|].
  apply (@names_hold_latest_returns
           nat float Bowl.Failure (Bowl.cost_fn (Some 3%nat)) descent 0 scalar 1
           3%nat 0%nat device_lost lost).
  vm_compute. reflexivity.
Defined.

End VQE.

(** ** Properties of the geometry parser *)

Module Geometry.

Import GeometryParser.

Local Open Scope string_scope.

Lemma read_atoms_reads_every_line (ls : list string) :
  forall line l,
    read_atoms line ls = Ok l ->
    List.length l = List.length ls
    /\ forall k text,
         nth_error ls k = Some text ->
         exists a, nth_error l k = Some a
                   /\ parse_atom (line + k) text = Ok a.
Proof.
  induction ls as [|first ls IH]; intros line l H; simpl in H.
  - inversion H; subst. split; [reflexivity|].
    intros [|k] text Hk; discriminate.
  - destruct (parse_atom line first) as [a|e] eqn:Hfirst; [|discriminate].
    destruct (read_atoms (S line) ls) as [rest|e] eqn:Hrest; [|discriminate].
    inversion H; subst. destruct (IH _ _ Hrest) as [Hlen Hnth].
    split; [simpl; congruence|].
    intros [|k] text Hk; simpl in Hk.
    + inversion Hk; subst. exists a. rewrite Nat.add_0_r. auto.
    + destruct (Hnth k text Hk) as (a' & Ha' & Hp).
      exists a'. rewrite Nat.add_succ_r. auto.
Qed.

(** C6.  When [parse] succeeds the molecule has exactly the declared
    number of atoms, one for each line after the comment, in the order of
    the lines; and a text whose number of atom lines differs from the
    count it declares, fewer or more, is refused with a [FormatError]. *)
Theorem parse_atom_count :
  (forall text m,
      parse text = Ok m ->
      declared_count text = Some (Z.of_nat (List.length (atoms m)))
      /\ List.length (atoms m) = List.length (atom_lines text)
      /\ forall k line,
           nth_error (atom_lines text) k = Some line ->
           exists a, nth_error (atoms m) k = Some a
                     /\ parse_atom (3 + k) line = Ok a)
  /\ (forall text N,
         declared_count text = Some N ->
         Z.of_nat (List.length (atom_lines text)) <> N ->
         exists e, parse text = Raise e).
Proof.
  split.
  - intros text m H. unfold parse, declared_count, atom_lines in *.
    destruct (lines text) as [|header rest]; [discriminate|].
    destruct (integer header) as [n|]; [|discriminate].
    destruct (n <? 0)%Z eqn:Hneg; [discriminate|].
    destruct rest as [|c als]; [discriminate|].
    destruct (read_atoms 3 als) as [l|e] eqn:Hread; [|discriminate].
    destruct (List.length l =? Z.to_nat n)%nat eqn:Hcount; [|discriminate].
    inversion H; subst. simpl.
    apply Nat.eqb_eq in Hcount. apply Z.ltb_ge in Hneg.
    destruct (read_atoms_reads_every_line _ _ Hread) as [Hlen Hnth].
    split; [|split; assumption].
    rewrite Hcount. rewrite Z2Nat.id by assumption. reflexivity.
  - intros text N Hdecl Hne. unfold parse, declared_count, atom_lines in *.
    destruct (lines text) as [|header rest]; [discriminate|].
    rewrite Hdecl.
    destruct (N <? 0)%Z eqn:Hneg; [eauto|].
    destruct rest as [|c als]; [eauto|].
    simpl in Hne. apply Z.ltb_ge in Hneg.
    destruct (read_atoms 3 als) as [l|e] eqn:Hread; [|eauto].
    destruct (read_atoms_reads_every_line _ _ Hread) as [Hlen _].
    destruct (List.length l =? Z.to_nat N)%nat eqn:Hcount; [|eauto].
    apply Nat.eqb_eq in Hcount. exfalso. apply Hne.
    rewrite <- Hlen, Hcount. apply Z2Nat.id. assumption.
Qed.

Lemma parse_atom_count_witness :
  (declared_count input = Some (Z.of_nat 2)
   /\ 2%nat = List.length (atom_lines input))
  /\ (exists e, parse "2
Bad
H 0.0 0.0 0.0" = Raise e)
  /\ (exists e, parse "1
helium hydride
H 0.0 0.0 0.0
He 0.77 0.0 0.0" = Raise e).
Proof.
  destruct parse_atom_count as [Hok Hdiffers]. split.
  - destruct (Hok input
                {| comment := "Sample H2 molecule";
                   atoms := [ {| symbol := "H"; x := 0.3710; y := 0.0; z := 0.0 |};
                              {| symbol := "H"; x := -0.3710; y := 0.0; z := 0.0 |} ] |})
      as (Hdecl & Hlen & _).
    + vm_compute. reflexivity.
    + split; [exact Hdecl|exact Hlen].
  - split.
    + apply (Hdiffers _ 2%Z); [vm_compute; reflexivity|vm_compute; discriminate].
    + apply (Hdiffers _ 1%Z); [vm_compute; reflexivity|vm_compute; discriminate].
Defined.

(** C7.  The notebook's input parses to the molecule with the comment
    [Sample H2 molecule] and the two hydrogen atoms at [(0.3710, 0.0, 0.0)]
    and [(-0.3710, 0.0, 0.0)], in that order. *)
Theorem sample_molecule_parses :
  parse "2
Sample H2 molecule
H 0.3710 0.0 0.0
H -0.3710 0.0 0.0"
  = Ok {| comment := "Sample H2 molecule";
          atoms := [ {| symbol := "H"; x := 0.3710; y := 0.0; z := 0.0 |};
                     {| symbol := "H"; x := -0.3710; y := 0.0; z := 0.0 |} ] |}.
Proof. vm_compute. reflexivity. Qed.

(** C8.  A declared count of zero is accepted: the text of the two lines
    [0] and [Empty] parses to a molecule with no atom and the comment
    [Empty]; so does every text whose header is [0] and that has a comment
    line, which may be empty, and nothing after it; without a comment line
    the text is refused, and so it is with any line after the comment. *)
Theorem zero_atoms_is_accepted :
  parse "0
Empty
" = Ok {| comment := "Empty"; atoms := [] |}
  /\ (forall text c rest,
         lines text = "0" :: c :: rest ->
         (rest = [] -> parse text = Ok {| comment := c; atoms := [] |})
         /\ (rest <> [] -> exists e, parse text = Raise e))
  /\ parse "0

" = Ok {| comment := ""; atoms := [] |}
  /\ parse "0" = Raise MissingComment
  /\ parse "0
" = Raise MissingComment.
Proof.
  split; [vm_compute; reflexivity|].
  split; [|repeat split; vm_compute; reflexivity].
  intros text c rest H. unfold parse. rewrite H. simpl. split.
  - intros ->. reflexivity.
  - intros Hne. destruct (read_atoms 3 rest) as [l|e] eqn:Hread; [|eauto].
    destruct (read_atoms_reads_every_line _ _ Hread) as [Hlen _].
    destruct l as [|a l]; [|simpl; eauto].
    destruct rest; [contradiction|discriminate].
Qed.

End Geometry.
